(** * SafeYatri: the alert store of the dashboard's socket context

    A shallow embedding of [frontend/src/contexts/SocketContext.tsx]
    (the inbound socket handlers and the four outbound commands) and of
    the two alert components that call into it
    ([components/alerts/AlertPanel.tsx], [components/alerts/AlertCard.tsx]),
    followed by the properties of the alert lifecycle that hold of it.

    Conventions.
    - A payload typed [any] is a [jsval], a value as JSON carries it (so
      numbers are finite); the handlers only test such values
      (truthiness, nullishness, [typeof]) and copy them, so JS numbers
      are rationals and no arithmetic on them is modelled.
    - A property read on [null]/[undefined] throws; expressions that can
      throw live in the [completion] monad and the handlers' [try/catch]
      is the match on its result.
    - [Date.now()], [Math.random()] and [new Date()] are read from an
      [Env] supplied with each delivered event.
    - React state ([useState]) is the record [ClientState]; a functional
      update [setAlerts(prev => ...)] is a function on the [alerts] field.
      What [socket.emit] sends is appended to the [outbox] of the [World].
    - Toasts and console output are presentation and are left out.
    - The listeners are registered once per run of the effect and close
      over the render in which it ran; a run of events is taken within
      one registration, whose render had the cells [closure]. *)

From Stdlib Require Import Ascii QArith DecimalString DecimalPos DecimalN.
From stdpp Require Import base option list strings.

Close Scope Q_scope.
Open Scope string_scope.
Set Warnings "-register-all".

(** ** JavaScript values and the operators the handlers use *)

Module JS.

Inductive jsval : Type :=
| JUndefined
| JNull
| JBool (b : bool)
| JNum (q : Q)
| JStr (s : string)
| JArr (elems : list jsval)
| JObj (props : list (string * jsval)).

(** Own-property lookup in a parsed object literal. *)
Fixpoint lookup_prop (k : string) (props : list (string * jsval)) : jsval :=
  match props with
  | [] => JUndefined
  | (k', v) :: rest => if String.eqb k k' then v else lookup_prop k rest
  end.

(** [x == null], the test behind [?.] and [??]. *)
Definition nullish (v : jsval) : bool :=
  match v with
  | JUndefined | JNull => true
  | _ => false
  end.

(** ToBoolean. *)
Definition truthy (v : jsval) : bool :=
  match v with
  | JUndefined | JNull => false
  | JBool b => b
  | JNum q => negb (Qeq_bool q 0)
  | JStr s => negb (String.eqb s "")
  | JArr _ | JObj _ => true
  end.

(** [v.k] on a value that is not nullish.  None of the keys the handlers
    read is a prototype property of a string, number, boolean or array,
    so only objects answer with something else than [undefined]. *)
Definition get (v : jsval) (k : string) : jsval :=
  match v with
  | JObj props => lookup_prop k props
  | _ => JUndefined
  end.

(** [a || b] and [a ?? b] on evaluated operands: where the source uses
    them the right operand is a literal or the reading of the clock. *)
Definition or (a b : jsval) : jsval := if truthy a then a else b.
Definition coalesce (a b : jsval) : jsval := if nullish a then b else a.

(** [a ?? b] where [b] is itself a property read, evaluated only when
    [a] is nullish. *)
Definition coalesce_with {M : Type -> Type} `{MRet M}
    (a : jsval) (b : M jsval) : M jsval :=
  if nullish a then b else mret a.

(** [v?.k] *)
Definition opt_member (v : jsval) (k : string) : jsval :=
  if nullish v then JUndefined else get v k.

Inductive JsError : Type :=
| TypeError.

(** How the evaluation of an expression or a call ends. *)
Inductive completion (A : Type) : Type :=
| Normal (a : A)
| Throw (e : JsError).
Arguments Normal {A} a.
Arguments Throw {A} e.

#[global] Instance completion_ret : MRet completion := fun _ a => Normal a.
#[global] Instance completion_bind : MBind completion := fun _ _ f m =>
  match m with
  | Normal a => f a
  | Throw e => Throw e
  end.

(** [v.k]: a TypeError on [null] and [undefined]. *)
Definition member (v : jsval) (k : string) : completion jsval :=
  if nullish v then Throw TypeError else Normal (get v k).

Lemma truthy_not_nullish v : truthy v = true -> nullish v = false.
Proof. by destruct v. Qed.

Lemma or_truthy a b : truthy b = true -> truthy (or a b) = true.
Proof. unfold or. by destruct (truthy a) eqn:E. Qed.

Lemma or_not_nullish a b : nullish b = false -> nullish (or a b) = false.
Proof.
  unfold or. destruct (truthy a) eqn:E; [|done].
  intros _. by apply truthy_not_nullish.
Qed.

Lemma or_absent b : or JUndefined b = b.
Proof. done. Qed.

Lemma coalesce_not_nullish a b : nullish b = false -> nullish (coalesce a b) = false.
Proof. unfold coalesce. by destruct (nullish a) eqn:E. Qed.

Lemma member_ok v k : nullish v = false -> member v k = Normal (get v k).
Proof. unfold member. by intros ->. Qed.

Lemma member_nullish v k : nullish v = true -> member v k = Throw TypeError.
Proof. unfold member. by intros ->. Qed.

Lemma opt_member_ok v k : nullish v = false -> opt_member v k = get v k.
Proof. unfold opt_member. by intros ->. Qed.

End JS.
Import JS.

(** ** The data model of [SocketContext.tsx] *)

Inductive Status : Type :=
| pending | reviewing | dispatched | resolved | false_positive.

#[global] Instance Status_eq_dec : EqDecision Status.
Proof. solve_decision. Defined.

(** The string a status is on the wire. *)
Definition Status_str (s : Status) : string :=
  match s with
  | pending => "pending"
  | reviewing => "reviewing"
  | dispatched => "dispatched"
  | resolved => "resolved"
  | false_positive => "false_positive"
  end.

Record Location : Type := mkLocation {
  lat : jsval;
  lng : jsval;
  address : jsval
}.

(** [interface Alert].  [id] is a string and [status] a member of the
    union wherever the context builds or compares them; the fields that
    the [alert] handler fills by casting parts of an [any] payload hold
    whatever value arrived. *)
Record Alert : Type := mkAlert {
  id : string;
  type : jsval;
  severity : jsval;
  confidence : Q;
  timestamp : jsval;
  location : Location;
  camera_id : jsval;
  tourist_ids : jsval;
  evidence : jsval;
  status : Status;
  assigned_to : option string;
  description : jsval
}.

Module TouristLocation.

Inductive Activity : Type := active | inactive | emergency.

Record t : Type := mk {
  tourist_id : string;
  location : Q * Q;
  timestamp : string;
  battery_level : option Q;
  heart_rate : option Q;
  status : Activity
}.

End TouristLocation.

Inductive Health : Type := healthy | warning | critical.

Record SystemStatus : Type := mkSystemStatus {
  cameras_online : Q;
  cameras_total : Q;
  tourists_active : Q;
  alerts_pending : Q;
  system_health : Health
}.

Inductive Socket : Type := SocketIo.

(** The [useState] cells of [SocketProvider]. *)
Record ClientState : Type := mkClientState {
  socket : option Socket;
  connected : bool;
  alerts : list Alert;
  touristLocations : list TouristLocation.t;
  systemStatus : SystemStatus
}.

(** One [socket.emit(event, payload)]. *)
Record Emitted : Type := Emit {
  emitted_event : string;
  emitted_payload : jsval
}.

Record World : Type := mkWorld {
  state : ClientState;
  outbox : list Emitted
}.

Definition initialState : ClientState :=
  {| socket := None;
     connected := false;
     alerts := [];
     touristLocations := [];
     systemStatus := {| cameras_online := 0; cameras_total := 0;
                        tourists_active := 0; alerts_pending := 0;
                        system_health := healthy |} |}.

Definition setAlerts (f : list Alert -> list Alert) (st : ClientState) : ClientState :=
  {| socket := socket st; connected := connected st; alerts := f (alerts st);
     touristLocations := touristLocations st; systemStatus := systemStatus st |}.

Definition setConnected (b : bool) (st : ClientState) : ClientState :=
  {| socket := socket st; connected := b; alerts := alerts st;
     touristLocations := touristLocations st; systemStatus := systemStatus st |}.

Definition setTouristLocations (l : list TouristLocation.t) (st : ClientState) : ClientState :=
  {| socket := socket st; connected := connected st; alerts := alerts st;
     touristLocations := l; systemStatus := systemStatus st |}.

Definition setSystemStatus (s : SystemStatus) (st : ClientState) : ClientState :=
  {| socket := socket st; connected := connected st; alerts := alerts st;
     touristLocations := touristLocations st; systemStatus := s |}.

(** What the clock and the random generator answer while one event is
    handled: [Date.now()], [Math.random().toString(36)] and
    [new Date().toISOString()]. *)
Record Env : Type := mkEnv {
  Date_now : N;
  Math_random_base36 : string;
  Date_toISOString : string
}.

(** [`${Date.now()}_${Math.random().toString(36).slice(2, 8)}`] *)
Definition fresh_id (env : Env) : string :=
  NilZero.string_of_uint (N.to_uint (Date_now env))
  ++ "_" ++ String.substring 2 6 (Math_random_base36 env).

(** ** The inbound handlers *)

Section Handlers.

(** ECMAScript's ToString, which a template literal applies to the value
    it interpolates, and [String.prototype.trim]. *)
Variable ToString : jsval -> string.
Variable String_trim : string -> string.

(** The cells of the render in which the effect registered the
    listeners: the [sendAlert] that the [iot_band_update] listener calls
    is the one of that render and reads its [socket] and [connected]. *)
Variable closure : ClientState.

(** [loc.lat ?? loc.latitude ?? 0] and its [lng] twin. *)
Definition read_coord (loc : jsval) (short long : string) : completion jsval :=
  a ← member loc short;
  b ← coalesce_with a (member loc long);
  mret (coalesce b (JNum 0)).

(** The object literal [mapped] of the [alert] handler. *)
Definition map_alert (env : Env) (payload : jsval) : completion Alert :=
  let details := or (opt_member payload "details") (JObj []) in
  location0 ← member details "location";
  let loc := or location0 (JObj []) in
  type0 ← member payload "type";
  severity0 ← member details "severity";
  confidence0 ← member details "confidence";
  timestamp0 ← member payload "timestamp";
  lat0 ← read_coord loc "lat" "latitude";
  lng0 ← read_coord loc "lng" "longitude";
  address0 ← member loc "address";
  camera_id0 ← member details "camera_id";
  tourist_ids0 ← member details "tourist_ids";
  evidence0 ← member details "evidence";
  description0 ← member details "description";
  mret {| id := fresh_id env;
          type := or type0 (JStr "violence");
          severity := or severity0 (JStr "high");
          confidence := match confidence0 with JNum q => q | _ => 0.8%Q end;
          timestamp := or timestamp0 (JStr (Date_toISOString env));
          location := {| lat := lat0; lng := lng0; address := address0 |};
          camera_id := camera_id0;
          tourist_ids := or tourist_ids0 (JArr []);
          evidence := evidence0;
          status := pending;
          assigned_to := None;
          description := or description0 (JStr "Alert received") |}.

(** The object literal [mapped] of the [tourist_violence_alert] handler. *)
Definition map_tourist_violence_alert (env : Env) (payload : jsval)
    : completion Alert :=
  let loc := or (opt_member payload "location") (JObj []) in
  lat0 ← read_coord loc "lat" "latitude";
  lng0 ← read_coord loc "lng" "longitude";
  camera_id0 ← member payload "camera_id";
  tourist_id0 ← member payload "tourist_id";
  tourist_name0 ← member payload "tourist_name";
  mret {| id := fresh_id env;
          type := JStr "violence";
          severity := JStr "high";
          confidence := 0.9%Q;
          timestamp := JStr (Date_toISOString env);
          location := {| lat := lat0; lng := lng0; address := JUndefined |};
          camera_id := camera_id0;
          tourist_ids := if truthy tourist_id0 then JArr [tourist_id0] else JArr [];
          evidence := JUndefined;
          status := pending;
          assigned_to := None;
          description :=
            JStr (String_trim ("Violence detected near tourist "
                               ++ ToString (or tourist_name0 (JStr "")))) |}.

(** The events the provider listens to. *)
Inductive ServerEvent : Type :=
| on_alert (payload : jsval)
| on_tourist_violence_alert (payload : jsval)
| on_connect
| on_disconnect
| on_new_alert (alert : Alert)
| on_alert_updated (updatedAlert : Alert)
| on_tourist_location_update (locations : list TouristLocation.t)
| on_system_status_update (status : SystemStatus)
| on_iot_band_update (data : jsval).

(** [try { const mapped = ...; setAlerts(prev => [mapped, ...prev]) }
     catch (e) { console.error(...) }] *)
Definition try_prepend (mapped : completion Alert) (st : ClientState) : ClientState :=
  match mapped with
  | Normal a => setAlerts (fun prev => a :: prev) st
  | Throw _ => st
  end.

Definition handle (env : Env) (ev : ServerEvent) (st : ClientState) : ClientState :=
  match ev with
  | on_alert payload => try_prepend (map_alert env payload) st
  | on_tourist_violence_alert payload =>
      try_prepend (map_tourist_violence_alert env payload) st
  | on_connect => setConnected true st
  | on_disconnect => setConnected false st
  | on_new_alert alert => setAlerts (fun prev => alert :: prev) st
  | on_alert_updated updatedAlert =>
      setAlerts (fun prev =>
        (fun alert => if String.eqb (id alert) (id updatedAlert)
                      then updatedAlert else alert) <$> prev) st
  | on_tourist_location_update locations => setTouristLocations locations st
  | on_system_status_update status => setSystemStatus status st
  | on_iot_band_update _ => st
  end.

(** The Alert an event puts into the Store, if it puts one. *)
Definition created (env : Env) (ev : ServerEvent) : option Alert :=
  match ev with
  | on_alert payload =>
      match map_alert env payload with Normal a => Some a | Throw _ => None end
  | on_tourist_violence_alert payload =>
      match map_tourist_violence_alert env payload with
      | Normal a => Some a | Throw _ => None end
  | on_new_alert alert => Some alert
  | _ => None
  end.

(** ** The outbound commands *)

Definition emit (event : string) (payload : jsval) (w : World) : World :=
  {| state := state w; outbox := outbox w ++ [Emit event payload] |}.

(** The guard [socket && connected]. *)
Definition socket_and_connected (st : ClientState) : bool :=
  match socket st with
  | Some _ => connected st
  | None => false
  end.

Definition of_optional (o : option string) : jsval :=
  match o with
  | Some s => JStr s
  | None => JUndefined
  end.

Definition sendAlert (alert : jsval) (w : World) : completion unit * World :=
  if socket_and_connected (state w)
  then (Normal tt, emit "send_alert" alert w)
  else (Normal tt, w).

Definition updateAlertStatus (alertId : string) (status : Status)
    (assignedTo : option string) (w : World) : completion unit * World :=
  if socket_and_connected (state w)
  then (Normal tt,
        emit "update_alert_status"
             (JObj [("alertId", JStr alertId);
                    ("status", JStr (Status_str status));
                    ("assignedTo", of_optional assignedTo)]) w)
  else (Normal tt, w).

Definition subscribeToCamera (cameraId : string) (w : World)
    : completion unit * World :=
  if socket_and_connected (state w)
  then (Normal tt, emit "subscribe_camera" (JObj [("cameraId", JStr cameraId)]) w)
  else (Normal tt, w).

Definition unsubscribeFromCamera (cameraId : string) (w : World)
    : completion unit * World :=
  if socket_and_connected (state w)
  then (Normal tt, emit "unsubscribe_camera" (JObj [("cameraId", JStr cameraId)]) w)
  else (Normal tt, w).

Inductive Command : Type :=
| call_sendAlert (alert : jsval)
| call_updateAlertStatus (alertId : string) (status : Status)
                         (assignedTo : option string)
| call_subscribeToCamera (cameraId : string)
| call_unsubscribeFromCamera (cameraId : string).

Definition invoke (c : Command) (w : World) : completion unit * World :=
  match c with
  | call_sendAlert alert => sendAlert alert w
  | call_updateAlertStatus alertId status assignedTo =>
      updateAlertStatus alertId status assignedTo w
  | call_subscribeToCamera cameraId => subscribeToCamera cameraId w
  | call_unsubscribeFromCamera cameraId => unsubscribeFromCamera cameraId w
  end.

(** ** The [iot_band_update] listener *)

(** The object literal [iotAlert]; [data] is not nullish where it is
    built, so the reads cannot throw. *)
Definition iotAlert (data : jsval) : jsval :=
  JObj [("type", get data "alert_type");
        ("severity", or (get data "severity") (JStr "medium"));
        ("confidence", or (get data "confidence") (JNum 0.8%Q));
        ("location", get data "location");
        ("tourist_ids", JArr [get data "tourist_id"]);
        ("description", or (get data "description") (JStr "IoT Band Alert"))].

(** The listener of [iot_band_update].  It calls no state setter; it
    calls [sendAlert], the one of the render [closure].  It has no
    [try]: a TypeError leaves the listener.  The [outbox] records every
    [socket.emit], on whichever socket. *)
Definition iot_band_update_listener (data : jsval) (w : World)
    : completion unit * World :=
  match member data "alert_type" with
  | Throw e => (Throw e, w)
  | Normal alert_type =>
      if truthy alert_type
      then let r := sendAlert (iotAlert data)
                      {| state := closure; outbox := outbox w |} in
           (fst r, {| state := state w; outbox := outbox (snd r) |})
      else (Normal tt, w)
  end.

(** ** Runs: events delivered and commands invoked, one after the other *)

Inductive Step : Type :=
| Deliver (env : Env) (ev : ServerEvent)
| Invoke (c : Command).

(** A delivered event changes the state as its listener says; the one
    listener that can emit is that of [iot_band_update]. *)
Definition step (w : World) (s : Step) : World :=
  match s with
  | Deliver env ev =>
      {| state := handle env ev (state w);
         outbox := match ev with
                   | on_iot_band_update data =>
                       outbox (snd (iot_band_update_listener data w))
                   | _ => outbox w
                   end |}
  | Invoke c => snd (invoke c w)
  end.

Definition run (w : World) (steps : list Step) : World :=
  foldl step w steps.

(** The Alert a step puts into the Store, if it puts one. *)
Definition created_by (s : Step) : option Alert :=
  match s with
  | Deliver env ev => created env ev
  | Invoke _ => None
  end.

End Handlers.

(** ** The alert components: [AlertCard.tsx] and [AlertPanel.tsx] *)

Inductive Action : Type :=
| act_review | act_dispatch | act_false_positive.

Module AlertCard.

(** The buttons a card renders: its two [Actions] blocks. *)
Definition actions (showActions onAction : bool) (a : Alert) : list Action :=
  (if showActions && onAction && bool_decide (status a = pending)
   then [act_review; act_dispatch; act_false_positive] else [])
  ++
  (if showActions && onAction && bool_decide (status a = reviewing)
   then [act_dispatch; act_false_positive] else []).

End AlertCard.

Module AlertPanel.

Inductive Role : Type :=
| admin | dispatcher | police | tourism_officer | auditor.

Record User : Type := mkUser {
  user_id : string;
  role : Role
}.

(** [user?.role === 'dispatcher' || user?.role === 'admin'] *)
Definition canDispatch (user : option User) : bool :=
  match user with
  | Some u => match role u with dispatcher | admin => true | _ => false end
  | None => false
  end.

Definition statusMap (action : Action) : Status :=
  match action with
  | act_review => reviewing
  | act_dispatch => dispatched
  | act_false_positive => false_positive
  end.

Definition handleAlertAction (user : option User) (alertId : string)
    (action : Action) (w : World) : completion unit * World :=
  updateAlertStatus alertId (statusMap action) (user_id <$> user) w.

(** The buttons the panel shows for one alert of the Store: the pending
    and reviewing sections pass [handleAlertAction] when [canDispatch],
    the dispatched section passes [showActions = false], and an alert in
    any other status is in no section. *)
Definition offered (user : option User) (a : Alert) : list Action :=
  match status a with
  | pending | reviewing => AlertCard.actions (canDispatch user) (canDispatch user) a
  | dispatched => AlertCard.actions false false a
  | resolved | false_positive => []
  end.

End AlertPanel.

(** ** Predicates of the specification *)

(** The closed enumeration of severities. *)
Definition is_severity (v : jsval) : bool :=
  match v with
  | JStr s => bool_decide (s ∈ ["low"; "medium"; "high"; "critical"])
  | _ => false
  end.

Definition in_unit_interval (q : Q) : bool :=
  Qle_bool 0 q && Qle_bool q 1.

Definition terminal (s : Status) : bool :=
  match s with
  | resolved | false_positive => true
  | _ => false
  end.

(** Every field that [interface Alert] does not mark optional holds a value. *)
Definition fully_populated (a : Alert) : bool :=
  negb (nullish (type a)) && negb (nullish (severity a))
  && negb (nullish (timestamp a))
  && negb (nullish (lat (location a))) && negb (nullish (lng (location a)))
  && negb (nullish (tourist_ids a)) && negb (nullish (description a)).

(** What the [alert] handler reads as [details]. *)
Definition details_of (payload : jsval) : jsval :=
  or (opt_member payload "details") (JObj []).

(** The values of severity and confidence a producer of [alert] events
    has to keep to for the Alert to be in range: a severity that is
    absent (falsy) or one of the enumeration, a confidence that is not a
    number or lies in the unit interval. *)
Definition payload_in_range (payload : jsval) : bool :=
  let details := details_of payload in
  (negb (truthy (get details "severity")) || is_severity (get details "severity"))
  && match get details "confidence" with
     | JNum q => in_unit_interval q
     | _ => true
     end.

Definition is_alert_updated (s : Step) : bool :=
  match s with
  | Deliver _ (on_alert_updated _) => true
  | _ => false
  end.

Definition in_range (a : Alert) : bool :=
  is_severity (severity a) && in_unit_interval (confidence a).

(** Deliveries of the two events that turn a producer's payload into an
    Alert: [alert] and [tourist_violence_alert]. *)
Definition is_detection (s : Step) : bool :=
  match s with
  | Deliver _ (on_alert _) | Deliver _ (on_tourist_violence_alert _) => true
  | _ => false
  end.

Definition step_in_range (s : Step) : bool :=
  match s with
  | Deliver _ (on_alert payload) => payload_in_range payload
  | _ => true
  end.

(** [loc.lat ?? loc.latitude ?? 0] once the reads are done. *)
Definition coord_of (loc : jsval) (short long : string) : jsval :=
  coalesce (coalesce (get loc short) (get loc long)) (JNum 0).

Definition ids (st : ClientState) : list string := id <$> alerts st.

(** ** More of [SocketContext.tsx]: the effect *)

Definition setSocket (s : option Socket) (st : ClientState) : ClientState :=
  {| socket := s; connected := connected st; alerts := alerts st;
     touristLocations := touristLocations st; systemStatus := systemStatus st |}.

(** The state setter in the body of [useEffect(..., [user])] when there is
    a user: [setSocket(newSocket)].  The listeners the effect registers
    are closures of the render in which it ran. *)
Definition useEffect_user (st : ClientState) : ClientState :=
  setSocket (Some SocketIo) st.

(** ** More of the components *)

Module DashboardLayout.

(** [alerts.filter(alert => alert.status === 'pending').length], the
    count on the header's bell. *)
Definition pendingAlerts (alerts : list Alert) : nat :=
  length (filter (fun a => status a = pending) alerts).

End DashboardLayout.

Module AlertPanelSections.

Definition pendingAlerts (alerts : list Alert) : list Alert :=
  filter (fun a => status a = pending) alerts.

Definition reviewingAlerts (alerts : list Alert) : list Alert :=
  filter (fun a => status a = reviewing) alerts.

Definition dispatchedAlerts (alerts : list Alert) : list Alert :=
  filter (fun a => status a = dispatched) alerts.

(** [dispatchedAlerts.slice(0, 5)], the cards of the third section. *)
Definition dispatched_cards (alerts : list Alert) : list Alert :=
  take 5 (dispatchedAlerts alerts).

(** [alerts.length === 0], the condition of the "No alerts" block. *)
Definition no_alerts (alerts : list Alert) : bool :=
  bool_decide (length alerts = 0%nat).

End AlertPanelSections.

Module AlertCardTourists.

(** [touristId.slice(-6)] *)
Definition last6 (touristId : string) : string :=
  String.substring (String.length touristId - 6) 6 touristId.

(** The chips of the card:
    [alert.tourist_ids.slice(0, 3).map(touristId => touristId.slice(-6))]. *)
Definition chips (tourist_ids : list string) : list string :=
  last6 <$> take 3 tourist_ids.

(** The number in "+N more", shown when [alert.tourist_ids.length > 3]. *)
Definition more (tourist_ids : list string) : option nat :=
  if decide (3 < length tourist_ids) then Some (length tourist_ids - 3) else None.

End AlertCardTourists.

(** ** What a run delivers and invokes *)

(** The message a command emits when the guard lets it. *)
Definition wire (c : Command) : Emitted :=
  match c with
  | call_sendAlert alert => Emit "send_alert" alert
  | call_updateAlertStatus alertId status assignedTo =>
      Emit "update_alert_status"
           (JObj [("alertId", JStr alertId);
                  ("status", JStr (Status_str status));
                  ("assignedTo", of_optional assignedTo)])
  | call_subscribeToCamera cameraId =>
      Emit "subscribe_camera" (JObj [("cameraId", JStr cameraId)])
  | call_unsubscribeFromCamera cameraId =>
      Emit "unsubscribe_camera" (JObj [("cameraId", JStr cameraId)])
  end.

Definition invoked (s : Step) : option Emitted :=
  match s with
  | Invoke c => Some (wire c)
  | Deliver _ _ => None
  end.

(** What an [iot_band_update] with [data] makes the listener emit when
    the render it closes over had the cells [closure]. *)
Definition forwarded (closure : ClientState) (data : jsval) : option Emitted :=
  if negb (nullish data) && truthy (get data "alert_type")
     && socket_and_connected closure
  then Some (Emit "send_alert" (iotAlert data))
  else None.

Definition forwarded_by (closure : ClientState) (s : Step) : option Emitted :=
  match s with
  | Deliver _ (on_iot_band_update data) => forwarded closure data
  | _ => None
  end.

(** The message of a command, the forwarding of a band update. *)
Definition sent_by (closure : ClientState) (s : Step) : option Emitted :=
  match s with
  | Invoke c => Some (wire c)
  | Deliver _ (on_iot_band_update data) => forwarded closure data
  | Deliver _ _ => None
  end.

Definition status_pushed (s : Step) : option SystemStatus :=
  match s with
  | Deliver _ (on_system_status_update status) => Some status
  | _ => None
  end.

Definition locations_pushed (s : Step) : option (list TouristLocation.t) :=
  match s with
  | Deliver _ (on_tourist_location_update locations) => Some locations
  | _ => None
  end.

Definition connection_change (s : Step) : option bool :=
  match s with
  | Deliver _ on_connect => Some true
  | Deliver _ on_disconnect => Some false
  | _ => None
  end.

Definition is_connect (s : Step) : bool :=
  match s with
  | Deliver _ on_connect => true
  | _ => false
  end.

Definition step_env (s : Step) : option Env :=
  match s with
  | Deliver env _ => Some env
  | Invoke _ => None
  end.

(** No character of [s] is [c]. *)
Fixpoint free_of (c : ascii) (s : string) : Prop :=
  match s with
  | EmptyString => True
  | String c' rest => c' <> c /\ free_of c rest
  end.

(** ** Data for the examples *)

Module Example.

(** A runtime to run the examples with: ToString as it is on strings and
    booleans, and a [trim] that strips blanks at both ends. *)
Definition ToString (v : jsval) : string :=
  match v with
  | JStr s => s
  | JBool true => "true"
  | JBool false => "false"
  | JNull => "null"
  | JUndefined => "undefined"
  | JObj _ => "[object Object]"
  | JNum _ | JArr _ => ""
  end.

Fixpoint trim_left (s : string) : string :=
  match s with
  | String " "%char rest => trim_left rest
  | _ => s
  end.

Definition String_trim (s : string) : string :=
  String.rev (trim_left (String.rev (trim_left s))).

Definition env0 : Env :=
  {| Date_now := 1700000000000;
     Math_random_base36 := "0.4fzyo82mvyr";
     Date_toISOString := "2023-11-14T22:13:20.000Z" |}.

Definition env1 : Env :=
  {| Date_now := 1700000000250;
     Math_random_base36 := "0.k3x9q0a7c2";
     Date_toISOString := "2023-11-14T22:13:20.250Z" |}.

Definition alert_with (id0 : string) (timestamp0 : string) (status0 : Status)
    (assigned : option string) : Alert :=
  {| id := id0;
     type := JStr "violence";
     severity := JStr "high";
     confidence := 0.92%Q;
     timestamp := JStr timestamp0;
     location := {| lat := JNum 28.65%Q; lng := JNum 77.23%Q;
                    address := JUndefined |};
     camera_id := JStr "cam_004";
     tourist_ids := JArr [];
     evidence := JUndefined;
     status := status0;
     assigned_to := assigned;
     description := JStr "Violence detected" |}.

Definition store (sock : option Socket) (conn : bool) (l : list Alert) : World :=
  {| state := {| socket := sock; connected := conn; alerts := l;
                 touristLocations := touristLocations initialState;
                 systemStatus := systemStatus initialState |};
     outbox := [] |}.

(** The detection event of Scenario A. *)
Definition scenarioA : jsval :=
  JObj [("details",
         JObj [("confidence", JNum 0.92%Q);
               ("severity", JStr "high");
               ("location", JObj [("lat", JNum 28.65%Q); ("lng", JNum 77.23%Q)]);
               ("camera_id", JStr "cam_004");
               ("description", JStr "Violence detected")])].

(** A detection event whose producer sends a severity outside the
    enumeration and a confidence above one. *)
Definition out_of_range : jsval :=
  JObj [("type", JStr "anomaly");
        ("details", JObj [("severity", JStr "extreme");
                          ("confidence", JNum 1.5%Q)])].

Definition tourist_payload : jsval :=
  JObj [("location", JObj [("latitude", JNum 26.92%Q);
                           ("longitude", JNum 75.82%Q)]);
        ("camera_id", JStr "cam_002");
        ("tourist_id", JStr "T-0017");
        ("tourist_name", JStr "Asha")].

(** A band update that carries an alert type. *)
Definition band_panic : jsval :=
  JObj [("alert_type", JStr "panic"); ("tourist_id", JStr "T-0017")].

End Example.

(** * Properties *)

Section Properties.

Variable ToString : jsval -> string.
Variable String_trim : string -> string.
Variable closure : ClientState.

Local Abbreviation handle := (handle ToString String_trim).
Local Abbreviation created := (created ToString String_trim).
Local Abbreviation step := (step ToString String_trim closure).
Local Abbreviation run := (run ToString String_trim closure).
Local Abbreviation created_by := (created_by ToString String_trim).
Local Abbreviation map_tourist_violence_alert :=
  (map_tourist_violence_alert ToString String_trim).

(** ** Commands *)

Lemma invoke_returns c w : fst (invoke c w) = Normal tt.
Proof.
  destruct c; simpl;
    unfold sendAlert, updateAlertStatus, subscribeToCamera, unsubscribeFromCamera;
    by destruct (socket_and_connected (state w)).
Qed.

Lemma invoke_state c w : state (snd (invoke c w)) = state w.
Proof.
  destruct c; simpl;
    unfold sendAlert, updateAlertStatus, subscribeToCamera, unsubscribeFromCamera;
    by destruct (socket_and_connected (state w)).
Qed.

Lemma invoke_closed c w :
  socket_and_connected (state w) = false -> snd (invoke c w) = w.
Proof.
  intros Hc. destruct c; simpl;
    unfold sendAlert, updateAlertStatus, subscribeToCamera, unsubscribeFromCamera;
    by rewrite Hc.
Qed.

Lemma handleAlertAction_invoke user alertId action w :
  AlertPanel.handleAlertAction user alertId action w
  = invoke (call_updateAlertStatus alertId (AlertPanel.statusMap action)
                                   (AlertPanel.user_id <$> user)) w.
Proof. done. Qed.

Lemma run_app w s1 s2 : run w (s1 ++ s2) = run (run w s1) s2.
Proof. apply foldl_app. Qed.

Lemma run_snoc w steps s : run w (steps ++ [s]) = step (run w steps) s.
Proof. by rewrite run_app. Qed.

Lemma run_invokes_state cs w : state (run w (Invoke <$> cs)) = state w.
Proof.
  revert w. induction cs as [|c cs IH]; intros w; simpl; [done|].
  rewrite IH. apply invoke_state.
Qed.

(** ** Handlers *)

Lemma try_prepend_alerts m st :
  alerts (try_prepend m st)
  = match m with Normal a => a :: alerts st | Throw _ => alerts st end.
Proof. by destruct m. Qed.

Lemma handle_created env ev st a :
  created env ev = Some a -> alerts (handle env ev st) = a :: alerts st.
Proof.
  destruct ev; simpl; try done.
  - rewrite try_prepend_alerts. destruct (map_alert env payload); naive_solver.
  - rewrite try_prepend_alerts.
    destruct (map_tourist_violence_alert env payload); naive_solver.
  - naive_solver.
Qed.

Lemma handle_not_created env ev st :
  created env ev = None ->
  (forall u, ev <> on_alert_updated u) ->
  alerts (handle env ev st) = alerts st.
Proof.
  intros Hc Hu. destruct ev; simpl in *; try done.
  - rewrite try_prepend_alerts. by destruct (map_alert env payload).
  - rewrite try_prepend_alerts.
    by destruct (map_tourist_violence_alert env payload).
  - by destruct (Hu updatedAlert).
Qed.

Lemma step_keeps_alerts_as_suffix w s :
  is_alert_updated s = false ->
  alerts (state w) `suffix_of` alerts (state (step w s)).
Proof.
  intros Hs. destruct s as [env ev|c]; simpl.
  - destruct (created env ev) as [a|] eqn:Hc.
    + rewrite (handle_created _ _ _ _ Hc). by apply suffix_cons_r.
    + rewrite handle_not_created; [done|done|]. intros u ->. done.
  - by rewrite invoke_state.
Qed.

(** C10: no outbound command changes the local Store.  After
    [sendAlert], [updateAlertStatus], [subscribeToCamera] or
    [unsubscribeFromCamera], and after the panel's [handleAlertAction],
    the alerts, the tourist locations, the system status and the
    connection flag are what they were, connected or not; the same holds
    after any number of commands.  In a run without an [alert_updated]
    event the alerts that were in the Store stay in it untouched, as its
    tail, so a status only changes when [alert_updated] arrives. *)
Theorem commands_leave_store_unchanged :
  (forall c w,
     alerts (state (snd (invoke c w))) = alerts (state w)
     /\ touristLocations (state (snd (invoke c w))) = touristLocations (state w)
     /\ systemStatus (state (snd (invoke c w))) = systemStatus (state w)
     /\ connected (state (snd (invoke c w))) = connected (state w))
  /\ (forall user alertId action w,
        state (snd (AlertPanel.handleAlertAction user alertId action w)) = state w)
  /\ (forall cs w, state (run w (Invoke <$> cs)) = state w)
  /\ (forall steps w,
        forallb (fun s => negb (is_alert_updated s)) steps = true ->
        alerts (state w) `suffix_of` alerts (state (run w steps))).
Proof.
  split; [|split; [|split]].
  - intros c w. by rewrite invoke_state.
  - intros. rewrite handleAlertAction_invoke. apply invoke_state.
  - apply run_invokes_state.
  - induction steps as [|s steps IH] using rev_ind; intros w Hall; [done|].
    rewrite forallb_app in Hall. simpl in Hall.
    apply andb_prop in Hall as [H1 H2].
    rewrite run_snoc. etrans; [by apply IH|].
    apply step_keeps_alerts_as_suffix.
    by destruct (is_alert_updated s).
Qed.

(** C1 (as the code has it): [updateAlertStatus] validates nothing.
    Whatever the alert's current status and whatever status is asked for,
    the call returns normally; when the socket is there and connected it
    emits [update_alert_status] with [{alertId, status, assignedTo}], and
    otherwise it emits nothing.  Either way no Alert is mutated: every
    alert of the Store, a pending one included, is still there with the
    status it had. *)
Theorem updateAlertStatus_validates_nothing alertId status assignedTo w :
  fst (updateAlertStatus alertId status assignedTo w) = Normal tt
  /\ alerts (state (snd (updateAlertStatus alertId status assignedTo w)))
     = alerts (state w)
  /\ outbox (snd (updateAlertStatus alertId status assignedTo w))
     = if socket_and_connected (state w)
       then (outbox w ++ [Emit "update_alert_status"
                            (JObj [("alertId", JStr alertId);
                                   ("status", JStr (Status_str status));
                                   ("assignedTo", of_optional assignedTo)])])%list
       else outbox w.
Proof.
  unfold updateAlertStatus.
  by destruct (socket_and_connected (state w)).
Qed.

(** C3 (as the code has it): a command attempted while the guard
    [socket && connected] is false returns normally and does nothing at
    all: no error reaches the caller, nothing is emitted and nothing is
    kept for later, so the command is dropped. *)
Theorem command_while_disconnected_is_dropped c w :
  socket_and_connected (state w) = false ->
  invoke c w = (Normal tt, w).
Proof.
  intros Hc.
  rewrite (surjective_pairing (invoke c w)).
  by rewrite invoke_returns, invoke_closed.
Qed.

(** ** The [alert_updated] handler *)

Lemma handle_alert_updated_lookup env u st i :
  alerts (handle env (on_alert_updated u) st) !! i
  = (fun a => if String.eqb (id a) (id u) then u else a) <$> (alerts st !! i).
Proof. simpl. apply list_lookup_fmap. Qed.


(** C2: an [alert_updated] event carrying the record [u] puts [u] itself,
    whole, at every place of the Store whose alert has [u]'s id, and
    leaves every alert with another id as it was, at its place; the
    length of the Store does not change.  Commands issued locally before
    the event ([cs]) or after it ([cs']) make no difference to that. *)
Theorem alert_updated_replaces_wholesale env u cs cs' w i a :
  alerts (state w) !! i = Some a ->
  length (alerts (state (run (step (run w (Invoke <$> cs))
                                   (Deliver env (on_alert_updated u)))
                             (Invoke <$> cs'))))
  = length (alerts (state w))
  /\ alerts (state (run (step (run w (Invoke <$> cs))
                              (Deliver env (on_alert_updated u)))
                        (Invoke <$> cs'))) !! i
     = Some (if decide (id a = id u) then u else a).
Proof.
  intros Hi. rewrite run_invokes_state. simpl. rewrite run_invokes_state.
  split; [by rewrite length_fmap|].
  rewrite list_lookup_fmap, Hi. simpl. f_equal.
  destruct (String.eqb_spec (id a) (id u)); by case_decide.
Qed.

(** C6 (as the code has it): nothing guards a terminal status.  The
    commands behind review and dispatch never mutate an alert, whatever
    its status, and the panel offers no action on a resolved or
    false-positive alert; but an [alert_updated] record replaces the
    stored alert of the same id unconditionally, so the stored status
    becomes the incoming one, terminal or not. *)
Theorem terminal_status_is_not_guarded :
  (forall user alertId action w,
     alerts (state (snd (AlertPanel.handleAlertAction user alertId action w)))
     = alerts (state w))
  /\ (forall user a, terminal (status a) = true -> AlertPanel.offered user a = [])
  /\ (forall env u st i a,
        alerts st !! i = Some a -> id a = id u ->
        status <$> (alerts (handle env (on_alert_updated u) st) !! i)
        = Some (status u)).
Proof.
  split; [|split].
  - intros. by rewrite handleAlertAction_invoke, invoke_state.
  - intros user a Ht. unfold AlertPanel.offered.
    by destruct (status a).
  - intros env u st i a Hi Hid.
    rewrite handle_alert_updated_lookup, Hi. simpl.
    by rewrite Hid, String.eqb_refl.
Qed.

(** ** Insertion *)

Lemma step_alerts w s :
  is_alert_updated s = false ->
  alerts (state (step w s))
  = match created_by s with
    | Some a => a :: alerts (state w)
    | None => alerts (state w)
    end.
Proof.
  intros Hs. destruct s as [env ev|c]; simpl.
  - destruct (created env ev) as [a|] eqn:Hc.
    + by apply handle_created.
    + apply handle_not_created; [done|]. by intros u ->.
  - by rewrite invoke_state.
Qed.

Lemma run_alerts steps w :
  forallb (fun s => negb (is_alert_updated s)) steps = true ->
  alerts (state (run w steps))
  = (reverse (omap created_by steps) ++ alerts (state w))%list.
Proof.
  revert w. induction steps as [|s steps IH] using rev_ind; intros w Hall; [done|].
  rewrite forallb_app in Hall. simpl in Hall.
  apply andb_prop in Hall as [H1 H2].
  rewrite run_snoc, step_alerts by (by destruct (is_alert_updated s)).
  rewrite omap_app, reverse_app, (IH _ H1). simpl.
  by destruct (created_by s).
Qed.

(** C8: an event that creates an Alert puts it at the front of the
    Store and keeps what was there, unchanged, behind it.  Over a run of
    deliveries (and commands) without [alert_updated], the Store is the
    created Alerts, the latest first, followed by the alerts it started
    with: the order is the order of arrival, whatever the timestamps. *)
Theorem created_alerts_are_prepended :
  (forall env ev st a,
     created env ev = Some a -> alerts (handle env ev st) = a :: alerts st)
  /\ (forall steps w,
        forallb (fun s => negb (is_alert_updated s)) steps = true ->
        alerts (state (run w steps))
        = (reverse (omap created_by steps) ++ alerts (state w))%list).
Proof.
  split; [apply handle_created | apply run_alerts].
Qed.


(** ** The two mappings *)

Lemma details_truthy payload : truthy (details_of payload) = true.
Proof. by apply or_truthy. Qed.

Lemma read_coord_ok loc short long :
  nullish loc = false ->
  read_coord loc short long = Normal (coord_of loc short long).
Proof.
  intros Hl. unfold read_coord, coord_of, coalesce_with, coalesce.
  rewrite !(member_ok loc) by done. simpl.
  by destruct (nullish (get loc short)).
Qed.

Lemma map_alert_ok env payload :
  nullish payload = false ->
  map_alert env payload
  = Normal
      {| id := fresh_id env;
         type := or (get payload "type") (JStr "violence");
         severity := or (get (details_of payload) "severity") (JStr "high");
         confidence := match get (details_of payload) "confidence" with
                       | JNum q => q
                       | _ => 0.8%Q
                       end;
         timestamp := or (get payload "timestamp") (JStr (Date_toISOString env));
         location :=
           {| lat := coord_of (or (get (details_of payload) "location") (JObj []))
                              "lat" "latitude";
              lng := coord_of (or (get (details_of payload) "location") (JObj []))
                              "lng" "longitude";
              address := get (or (get (details_of payload) "location") (JObj []))
                             "address" |};
         camera_id := get (details_of payload) "camera_id";
         tourist_ids := or (get (details_of payload) "tourist_ids") (JArr []);
         evidence := get (details_of payload) "evidence";
         status := pending;
         assigned_to := None;
         description := or (get (details_of payload) "description")
                           (JStr "Alert received") |}.
Proof.
  intros Hp. unfold map_alert. fold (details_of payload).
  pose proof (truthy_not_nullish _ (details_truthy payload)) as Hd.
  rewrite !(member_ok (details_of payload)) by done. simpl.
  assert (nullish (or (get (details_of payload) "location") (JObj [])) = false)
    as Hl by (by apply truthy_not_nullish, or_truthy).
  rewrite !(member_ok payload) by done. simpl.
  rewrite !read_coord_ok by done. simpl.
  by rewrite member_ok by done.
Qed.

Lemma map_alert_nullish env payload :
  nullish payload = true -> map_alert env payload = Throw TypeError.
Proof.
  intros Hp. unfold map_alert. fold (details_of payload).
  pose proof (truthy_not_nullish _ (details_truthy payload)) as Hd.
  rewrite !(member_ok (details_of payload)) by done. simpl.
  rewrite !(member_nullish payload) by done. reflexivity.
Qed.

Lemma map_tourist_violence_alert_ok env payload :
  nullish payload = false ->
  map_tourist_violence_alert env payload
  = Normal
      {| id := fresh_id env;
         type := JStr "violence";
         severity := JStr "high";
         confidence := 0.9%Q;
         timestamp := JStr (Date_toISOString env);
         location :=
           {| lat := coord_of (or (get payload "location") (JObj [])) "lat" "latitude";
              lng := coord_of (or (get payload "location") (JObj [])) "lng" "longitude";
              address := JUndefined |};
         camera_id := get payload "camera_id";
         tourist_ids := if truthy (get payload "tourist_id")
                        then JArr [get payload "tourist_id"] else JArr [];
         evidence := JUndefined;
         status := pending;
         assigned_to := None;
         description :=
           JStr (String_trim ("Violence detected near tourist "
                              ++ ToString (or (get payload "tourist_name")
                                              (JStr "")))) |}.
Proof.
  intros Hp. unfold map_tourist_violence_alert.
  rewrite opt_member_ok by done.
  assert (nullish (or (get payload "location") (JObj [])) = false)
    as Hl by (by apply truthy_not_nullish, or_truthy).
  rewrite !read_coord_ok by done. simpl.
  by rewrite !(member_ok payload) by done.
Qed.

Lemma map_tourist_violence_alert_nullish env payload :
  nullish payload = true ->
  map_tourist_violence_alert env payload = Throw TypeError.
Proof.
  intros Hp. unfold map_tourist_violence_alert.
  assert (opt_member payload "location" = JUndefined) as ->
    by (unfold opt_member; by rewrite Hp).
  rewrite or_absent, !read_coord_ok by done. simpl.
  rewrite !(member_nullish payload) by done. reflexivity.
Qed.

Lemma created_on_alert env payload a :
  created env (on_alert payload) = Some a ->
  nullish payload = false /\ map_alert env payload = Normal a.
Proof.
  simpl. destruct (nullish payload) eqn:Hp.
  - by rewrite map_alert_nullish.
  - destruct (map_alert env payload); naive_solver.
Qed.

Lemma created_on_tourist_violence_alert env payload a :
  created env (on_tourist_violence_alert payload) = Some a ->
  nullish payload = false /\ map_tourist_violence_alert env payload = Normal a.
Proof.
  simpl. destruct (nullish payload) eqn:Hp.
  - by rewrite map_tourist_violence_alert_nullish.
  - destruct (map_tourist_violence_alert env payload); naive_solver.
Qed.

Lemma created_detection s a :
  is_detection s = true ->
  created_by s = Some a ->
  status a = pending /\ (step_in_range s = true -> in_range a = true).
Proof.
  intros Hd Hc. destruct s as [env [p|p| | |n|u|l|t|d]|c]; try done; simpl in Hc.
  - apply created_on_alert in Hc as [Hp Hm].
    rewrite map_alert_ok in Hm by done. injection Hm as <-.
    split; [done|]. simpl. unfold payload_in_range, in_range, or. simpl.
    intros [Hsev Hconf]%andb_prop. apply andb_true_intro. split.
    + destruct (truthy (get (details_of p) "severity")); naive_solver.
    + by destruct (get (details_of p) "confidence").
  - apply created_on_tourist_violence_alert in Hc as [Hp Hm].
    rewrite map_tourist_violence_alert_ok in Hm by done. by injection Hm as <-.
Qed.

Lemma created_detection_fields env ev a :
  is_detection (Deliver env ev) = true ->
  created env ev = Some a ->
  match ev with
  | on_alert payload =>
      severity a = (if truthy (get (details_of payload) "severity")
                    then get (details_of payload) "severity"
                    else JStr "high")
      /\ confidence a = match get (details_of payload) "confidence" with
                        | JNum q => q
                        | _ => 0.8%Q
                        end
      /\ (is_severity (severity a) = true
          /\ in_unit_interval (confidence a) = true
          <-> payload_in_range payload = true)
  | _ =>
      severity a = JStr "high"
      /\ confidence a = 0.9%Q
      /\ is_severity (severity a) = true
      /\ in_unit_interval (confidence a) = true
  end.
Proof.
  intros Hd Hc. destruct ev as [p|p| | |n|u|l|t|d]; try done.
  - apply created_on_alert in Hc as [Hp Hm].
    rewrite map_alert_ok in Hm by done. injection Hm as <-. simpl.
    split; [done|]. split; [done|].
    unfold payload_in_range, or. rewrite andb_true_iff.
    destruct (truthy (get (details_of p) "severity")); simpl;
      by destruct (get (details_of p) "confidence").
  - apply created_on_tourist_violence_alert in Hc as [Hp Hm].
    rewrite map_tourist_violence_alert_ok in Hm by done. by injection Hm as <-.
Qed.

(** C4 (as the code has it): start from an empty Store and deliver any
    sequence of [alert] and [tourist_violence_alert] events.  Every Alert
    in the Store then has status pending and was created by one event of
    the sequence.  When that event is an [alert], the Alert's severity is
    the payload's [details.severity] itself if that is truthy and high
    otherwise, its confidence is [details.confidence] itself if that is a
    number and 0.8 otherwise, nothing being checked: so the severity is
    one of low, medium, high, critical and the confidence lies in [0,1]
    exactly when that payload kept to it (a severity absent or one of the
    four, a confidence not a number or within [0,1]), whatever the other
    payloads of the sequence were.  When the event is a
    [tourist_violence_alert], severity is high and confidence 0.9. *)
Theorem detection_alerts_are_pending steps w a :
  forallb is_detection steps = true ->
  alerts (state w) = [] ->
  a ∈ alerts (state (run w steps)) ->
  status a = pending
  /\ (forallb step_in_range steps = true ->
      is_severity (severity a) = true /\ in_unit_interval (confidence a) = true)
  /\ exists env ev,
       Deliver env ev ∈ steps
       /\ created env ev = Some a
       /\ match ev with
          | on_alert payload =>
              severity a = (if truthy (get (details_of payload) "severity")
                            then get (details_of payload) "severity"
                            else JStr "high")
              /\ confidence a = match get (details_of payload) "confidence" with
                                | JNum q => q
                                | _ => 0.8%Q
                                end
              /\ (is_severity (severity a) = true
                  /\ in_unit_interval (confidence a) = true
                  <-> payload_in_range payload = true)
          | _ =>
              severity a = JStr "high"
              /\ confidence a = 0.9%Q
              /\ is_severity (severity a) = true
              /\ in_unit_interval (confidence a) = true
          end.
Proof.
  intros Hdet Hempty Ha.
  rewrite run_alerts, Hempty, app_nil_r in Ha.
  2:{ apply forallb_forall. intros s Hs.
      rewrite forallb_forall in Hdet. specialize (Hdet s Hs).
      by destruct s as [env []|c]. }
  apply elem_of_reverse, list_elem_of_omap in Ha as (s & Hs & Hc).
  pose proof Hs as Hin. apply list_elem_of_In in Hin.
  rewrite forallb_forall in Hdet.
  destruct (created_detection s a (Hdet s Hin) Hc) as [Hst Hr].
  split; [done|]. split.
  - intros Hall. rewrite forallb_forall in Hall.
    by apply andb_prop, Hr, Hall.
  - destruct s as [env ev|c]; [|done].
    exists env, ev. split; [done|]. split; [done|].
    exact (created_detection_fields env ev a (Hdet _ Hin) Hc).
Qed.

(** C5 (as the code has it): for every [tourist_violence_alert] payload
    that is not null or undefined, the handler creates one Alert, puts it
    at the front of the Store, and that Alert has type violence, severity
    high, confidence 0.9 and status pending. *)
Theorem tourist_violence_alert_is_violence_high_pending env payload st :
  nullish payload = false ->
  exists a,
    map_tourist_violence_alert env payload = Normal a
    /\ alerts (handle env (on_tourist_violence_alert payload) st) = a :: alerts st
    /\ type a = JStr "violence"
    /\ severity a = JStr "high"
    /\ confidence a = 0.9%Q
    /\ status a = pending.
Proof.
  intros Hp. eexists. split; [by apply map_tourist_violence_alert_ok|].
  simpl. by rewrite map_tourist_violence_alert_ok.
Qed.

(** C7: for every [alert] envelope (a payload that is not null or
    undefined) the handler creates exactly one Alert and puts it at the
    front of the Store.  The Alert has status pending and a value in
    every field the interface requires.  An omitted severity becomes
    high, an omitted confidence 0.8, an omitted description
    "Alert received", an omitted type violence, while a severity,
    description or type that is supplied (truthy) and a confidence that
    is a number are kept as they are; the camera reference and the
    evidence are those of the details, and the subject list is the
    supplied one, or empty when omitted.  Each coordinate is taken from
    the short spelling ([lat], [lng]) when it is there and from the long
    one ([latitude], [longitude]) otherwise. *)
Theorem alert_event_creates_one_populated_alert env payload st :
  nullish payload = false ->
  exists a,
    map_alert env payload = Normal a
    /\ alerts (handle env (on_alert payload) st) = a :: alerts st
    /\ status a = pending
    /\ fully_populated a = true
    /\ (get (details_of payload) "severity" = JUndefined ->
        severity a = JStr "high")
    /\ (get (details_of payload) "confidence" = JUndefined ->
        confidence a = 0.8%Q)
    /\ (get (details_of payload) "description" = JUndefined ->
        description a = JStr "Alert received")
    /\ (get payload "type" = JUndefined -> type a = JStr "violence")
    /\ (forall loc x y,
          loc = or (get (details_of payload) "location") (JObj []) ->
          nullish x = false -> nullish y = false ->
          (get loc "lat" = x -> lat (location a) = x)
          /\ (get loc "lng" = y -> lng (location a) = y)
          /\ (get loc "lat" = JUndefined -> get loc "latitude" = x ->
              lat (location a) = x)
          /\ (get loc "lng" = JUndefined -> get loc "longitude" = y ->
              lng (location a) = y))
    /\ (truthy (get (details_of payload) "severity") = true ->
        severity a = get (details_of payload) "severity")
    /\ (forall q, get (details_of payload) "confidence" = JNum q ->
        confidence a = q)
    /\ (truthy (get (details_of payload) "description") = true ->
        description a = get (details_of payload) "description")
    /\ (truthy (get payload "type") = true -> type a = get payload "type")
    /\ camera_id a = get (details_of payload) "camera_id"
    /\ evidence a = get (details_of payload) "evidence"
    /\ (truthy (get (details_of payload) "tourist_ids") = true ->
        tourist_ids a = get (details_of payload) "tourist_ids")
    /\ (get (details_of payload) "tourist_ids" = JUndefined ->
        tourist_ids a = JArr []).
Proof.
  intros Hp. eexists. split; [by apply map_alert_ok|].
  split.
  { change (handle env (on_alert payload) st)
      with (try_prepend (map_alert env payload) st).
    by rewrite map_alert_ok. }
  split; [done|]. simpl.
  split.
  { unfold fully_populated. simpl.
    unfold coord_of.
    by rewrite !or_not_nullish, !coalesce_not_nullish by done. }
  split; [by intros ->|]. split; [by intros ->|].
  split; [by intros ->|]. split; [by intros ->|].
  split.
  { intros loc x y -> Hx Hy. unfold coord_of, coalesce.
    repeat split.
    - intros E. rewrite E, Hx. simpl. by rewrite Hx.
    - intros E. rewrite E, Hy. simpl. by rewrite Hy.
    - intros E1 E2. rewrite E1, E2. simpl. by rewrite Hx.
    - intros E1 E2. rewrite E1, E2. simpl. by rewrite Hy. }
  unfold or.
  split; [by intros ->|]. split; [by intros q ->|].
  split; [by intros ->|]. split; [by intros ->|].
  split; [done|]. split; [done|].
  split; [by intros ->|]. by intros ->.
Qed.

End Properties.

(** * The properties at concrete inputs *)

Section Examples.

Import Example.

Local Abbreviation handle := (handle ToString String_trim).
Local Abbreviation created := (created ToString String_trim).
Local Abbreviation run := (run ToString String_trim initialState).
Local Abbreviation map_tourist_violence_alert :=
  (map_tourist_violence_alert ToString String_trim).

(** C1 at a concrete input: [resolve] asked for a pending alert, with the
    socket connected, is emitted and returns normally, not rejected. *)
Lemma resolve_on_pending_is_not_rejected :
  status <$> (alerts (state (store (Some SocketIo) true
                               [alert_with "a1" "2025-01-01T10:00:00Z" pending None]))
              !! 0%nat) = Some pending
  /\ updateAlertStatus "a1" resolved None
       (store (Some SocketIo) true
              [alert_with "a1" "2025-01-01T10:00:00Z" pending None])
     = (Normal tt,
        {| state := state (store (Some SocketIo) true
                     [alert_with "a1" "2025-01-01T10:00:00Z" pending None]);
           outbox := [Emit "update_alert_status"
                        (JObj [("alertId", JStr "a1");
                               ("status", JStr "resolved");
                               ("assignedTo", JUndefined)])] |})
  /\ ~ (exists e,
         fst (updateAlertStatus "a1" resolved None
                (store (Some SocketIo) true
                       [alert_with "a1" "2025-01-01T10:00:00Z" pending None]))
         = Throw e).
Proof.
  split; [reflexivity|]. split; [reflexivity|].
  intros [e He]. discriminate He.
Qed.

(** C3 at a concrete input: with the socket there but disconnected, each
    of the four commands returns normally, emits nothing and leaves the
    world as it was; none fails. *)
Lemma disconnected_commands_do_not_fail :
  Forall (fun c =>
            invoke c (store (Some SocketIo) false
                            [alert_with "a1" "2025-01-01T10:00:00Z" pending None])
            = (Normal tt,
               store (Some SocketIo) false
                     [alert_with "a1" "2025-01-01T10:00:00Z" pending None]))
         [call_sendAlert (JObj [("type", JStr "panic")]);
          call_updateAlertStatus "a1" dispatched (Some "u7");
          call_subscribeToCamera "cam_004";
          call_unsubscribeFromCamera "cam_004"]
  /\ ~ (exists e,
         fst (invoke (call_updateAlertStatus "a1" dispatched (Some "u7"))
                (store (Some SocketIo) false
                       [alert_with "a1" "2025-01-01T10:00:00Z" pending None]))
         = Throw e).
Proof.
  split; [by repeat constructor|].
  intros [e He]. discriminate He.
Qed.

Lemma command_while_disconnected_is_dropped_witness :
  socket_and_connected
    (state (store (Some SocketIo) false
                  [alert_with "a1" "2025-01-01T10:00:00Z" pending None])) = false
  /\ invoke (call_updateAlertStatus "a1" dispatched (Some "u7"))
            (store (Some SocketIo) false
                   [alert_with "a1" "2025-01-01T10:00:00Z" pending None])
     = (Normal tt,
        store (Some SocketIo) false
              [alert_with "a1" "2025-01-01T10:00:00Z" pending None]).
Proof.
  split; [reflexivity|].
  exact (command_while_disconnected_is_dropped
           (call_updateAlertStatus "a1" dispatched (Some "u7"))
           (store (Some SocketIo) false
                  [alert_with "a1" "2025-01-01T10:00:00Z" pending None])
           eq_refl).
Defined.

(** C2 at a concrete input: the store holds a1 and a2, both pending; a
    review of a1 is issued locally, then [alert_updated] brings a1 as
    resolved and assigned.  The first place holds the incoming record. *)
Lemma alert_updated_replaces_wholesale_witness :
  alerts (state (store (Some SocketIo) true
                   [alert_with "a1" "2025-01-01T10:00:00Z" pending None;
                    alert_with "a2" "2025-01-01T09:00:00Z" pending None]))
    !! 0%nat
  = Some (alert_with "a1" "2025-01-01T10:00:00Z" pending None)
  /\ alerts (state (run (step ToString String_trim initialState
                       (run (store (Some SocketIo) true
                               [alert_with "a1" "2025-01-01T10:00:00Z" pending None;
                                alert_with "a2" "2025-01-01T09:00:00Z" pending None])
                            (Invoke <$> [call_updateAlertStatus "a1" reviewing
                                                                (Some "u7")]))
                       (Deliver env0
                          (on_alert_updated
                             (alert_with "a1" "2025-01-01T10:00:00Z" resolved
                                         (Some "off_002")))))
                    (Invoke <$> []))) !! 0%nat
     = Some (alert_with "a1" "2025-01-01T10:00:00Z" resolved (Some "off_002")).
Proof.
  split; [reflexivity|].
  exact (proj2 (alert_updated_replaces_wholesale ToString String_trim initialState env0
                  (alert_with "a1" "2025-01-01T10:00:00Z" resolved (Some "off_002"))
                  [call_updateAlertStatus "a1" reviewing (Some "u7")] []
                  (store (Some SocketIo) true
                     [alert_with "a1" "2025-01-01T10:00:00Z" pending None;
                      alert_with "a2" "2025-01-01T09:00:00Z" pending None])
                  0%nat
                  (alert_with "a1" "2025-01-01T10:00:00Z" pending None)
                  eq_refl)).
Defined.

(** C4 at a concrete input: one [alert] event whose producer supplies
    severity "extreme" and confidence 1.5 leaves, in a Store that was
    empty, an Alert with exactly these values. *)
Lemma out_of_range_payload_is_copied :
  (fun a => (severity a, confidence a, status a))
    <$> alerts (state (run (store (Some SocketIo) true [])
                           [Deliver env1 (on_alert out_of_range)]))
  = [(JStr "extreme", 1.5%Q, pending)]
  /\ is_severity (JStr "extreme") = false
  /\ in_unit_interval 1.5%Q = false.
Proof. by repeat split. Qed.

(** C4 at a concrete input: Scenario A is followed by the event with
    severity "extreme" and confidence 1.5.  The Alert of Scenario A is
    pending and in range all the same, its own payload being in range. *)
Lemma detection_alerts_are_pending_witness :
  forallb is_detection
    [Deliver env0 (on_alert scenarioA);
     Deliver env1 (on_alert out_of_range)] = true
  /\ forallb step_in_range
       [Deliver env0 (on_alert scenarioA);
        Deliver env1 (on_alert out_of_range)] = false
  /\ status (alert_with "1700000000000_4fzyo8" "2023-11-14T22:13:20.000Z"
                        pending None) = pending
  /\ is_severity (severity (alert_with "1700000000000_4fzyo8"
                              "2023-11-14T22:13:20.000Z" pending None)) = true
  /\ in_unit_interval (confidence (alert_with "1700000000000_4fzyo8"
                                     "2023-11-14T22:13:20.000Z" pending None))
     = true.
Proof.
  split; [reflexivity|]. split; [reflexivity|].
  destruct (detection_alerts_are_pending ToString String_trim initialState
              [Deliver env0 (on_alert scenarioA);
               Deliver env1 (on_alert out_of_range)]
              (store (Some SocketIo) true [])
              (alert_with "1700000000000_4fzyo8" "2023-11-14T22:13:20.000Z"
                          pending None)
              eq_refl eq_refl
              (list_elem_of_further _ _ _ (list_elem_of_here _ _)))
    as (H1 & _ & env & ev & Hin & Hc & Hf).
  split; [exact H1|].
  apply elem_of_cons in Hin as [Hin|Hin].
  - injection Hin as -> ->. destruct Hf as (_ & _ & Hr). by apply Hr.
  - apply list_elem_of_singleton in Hin. injection Hin as -> ->.
    discriminate Hc.
Defined.

(** C5 at a concrete input: the Alert made from a
    [tourist_violence_alert] payload has type violence, not panic. *)
Lemma tourist_violence_alert_is_not_panic :
  (fun a => (type a, severity a, status a))
    <$> created env0 (on_tourist_violence_alert tourist_payload)
  = Some (JStr "violence", JStr "high", pending)
  /\ type <$> created env0 (on_tourist_violence_alert tourist_payload)
     <> Some (JStr "panic").
Proof. split; [reflexivity|discriminate]. Qed.

Lemma tourist_violence_alert_is_violence_high_pending_witness :
  nullish tourist_payload = false
  /\ exists a,
       alerts (handle env0 (on_tourist_violence_alert tourist_payload)
                      (state (store (Some SocketIo) true []))) = [a]
       /\ type a = JStr "violence"
       /\ severity a = JStr "high"
       /\ status a = pending.
Proof.
  split; [reflexivity|].
  destruct (tourist_violence_alert_is_violence_high_pending
              ToString String_trim env0 tourist_payload
              (state (store (Some SocketIo) true [])) eq_refl)
    as (a & _ & Hs & Ht & Hv & _ & Hp).
  exists a. repeat split; assumption.
Defined.

(** C6 at a concrete input: a1 is resolved in the Store; an
    [alert_updated] record for a1 with status pending arrives, and a1 is
    pending again. *)
Lemma alert_updated_regresses_resolved :
  status <$> alerts (state (store (Some SocketIo) true
                       [alert_with "a1" "2025-01-01T10:00:00Z" resolved
                                   (Some "off_002")]))
  = [resolved]
  /\ status <$> alerts (handle env0
                          (on_alert_updated
                             (alert_with "a1" "2025-01-01T10:00:00Z" pending None))
                          (state (store (Some SocketIo) true
                                    [alert_with "a1" "2025-01-01T10:00:00Z"
                                                resolved (Some "off_002")])))
     = [pending]
  /\ terminal resolved = true
  /\ terminal pending = false.
Proof. by repeat split. Qed.

Lemma terminal_status_is_not_guarded_witness :
  terminal (status (alert_with "a1" "2025-01-01T10:00:00Z" resolved None)) = true
  /\ AlertPanel.offered
       (Some {| AlertPanel.user_id := "u7"; AlertPanel.role := AlertPanel.dispatcher |})
       (alert_with "a1" "2025-01-01T10:00:00Z" resolved None) = []
  /\ status <$> (alerts (handle env0
                           (on_alert_updated
                              (alert_with "a1" "2025-01-01T10:00:00Z" reviewing None))
                           (state (store (Some SocketIo) true
                                     [alert_with "a1" "2025-01-01T10:00:00Z"
                                                 false_positive None])))
                 !! 0%nat)
     = Some reviewing.
Proof.
  split; [reflexivity|].
  destruct (terminal_status_is_not_guarded ToString String_trim) as (_ & H2 & H3).
  split.
  - exact (H2 _ (alert_with "a1" "2025-01-01T10:00:00Z" resolved None) eq_refl).
  - exact (H3 env0 (alert_with "a1" "2025-01-01T10:00:00Z" reviewing None)
              (state (store (Some SocketIo) true
                        [alert_with "a1" "2025-01-01T10:00:00Z" false_positive None]))
              0%nat
              (alert_with "a1" "2025-01-01T10:00:00Z" false_positive None)
              eq_refl eq_refl).
Defined.

(** C7 at Scenario A: one new Alert, type defaulted to violence, status
    pending, the given severity, confidence, description, camera and
    coordinates kept. *)
Lemma alert_event_creates_one_populated_alert_witness :
  nullish scenarioA = false
  /\ exists a,
       alerts (handle env0 (on_alert scenarioA)
                      (state (store (Some SocketIo) true []))) = [a]
       /\ status a = pending
       /\ fully_populated a = true
       /\ type a = JStr "violence"
       /\ lat (location a) = JNum 28.65%Q
       /\ lng (location a) = JNum 77.23%Q
       /\ severity a = JStr "high"
       /\ confidence a = 0.92%Q
       /\ description a = JStr "Violence detected"
       /\ camera_id a = JStr "cam_004"
       /\ tourist_ids a = JArr [].
Proof.
  split; [reflexivity|].
  destruct (alert_event_creates_one_populated_alert
              ToString String_trim env0 scenarioA
              (state (store (Some SocketIo) true [])) eq_refl)
    as (a & _ & Hs & Hp & Hf & _ & _ & _ & Ht & Hl
          & Hsev & Hconf & Hdesc & _ & Hcam & _ & _ & Hids).
  destruct (Hl _ (JNum 28.65%Q) (JNum 77.23%Q) eq_refl eq_refl eq_refl)
    as (Hlat & Hlng & _).
  exists a. split; [exact Hs|]. split; [exact Hp|]. split; [exact Hf|].
  split; [exact (Ht eq_refl)|]. split; [exact (Hlat eq_refl)|].
  split; [exact (Hlng eq_refl)|]. split; [exact (Hsev eq_refl)|].
  split; [exact (Hconf _ eq_refl)|]. split; [exact (Hdesc eq_refl)|].
  split; [exact Hcam|exact (Hids eq_refl)].
Defined.

(** C8 at a concrete input: a2 arrives after a1 but carries the earlier
    timestamp; it is first in the Store all the same. *)
Lemma created_alerts_are_prepended_witness :
  forallb (fun s => negb (is_alert_updated s))
    [Deliver env0 (on_new_alert (alert_with "a1" "2025-01-01T10:00:00Z" pending None));
     Deliver env1 (on_new_alert (alert_with "a2" "2025-01-01T09:00:00Z" pending None))]
  = true
  /\ alerts (state (run (store (Some SocketIo) true
                          [alert_with "a0" "2025-01-01T12:00:00Z" pending None])
       [Deliver env0 (on_new_alert (alert_with "a1" "2025-01-01T10:00:00Z" pending None));
        Deliver env1 (on_new_alert (alert_with "a2" "2025-01-01T09:00:00Z" pending None))]))
     = [alert_with "a2" "2025-01-01T09:00:00Z" pending None;
        alert_with "a1" "2025-01-01T10:00:00Z" pending None;
        alert_with "a0" "2025-01-01T12:00:00Z" pending None].
Proof.
  split; [reflexivity|].
  exact (proj2 (created_alerts_are_prepended ToString String_trim initialState)
           [Deliver env0 (on_new_alert (alert_with "a1" "2025-01-01T10:00:00Z" pending None));
            Deliver env1 (on_new_alert (alert_with "a2" "2025-01-01T09:00:00Z" pending None))]
           (store (Some SocketIo) true
                  [alert_with "a0" "2025-01-01T12:00:00Z" pending None])
           eq_refl).
Defined.



(** C10 at a concrete input: three commands on a connected client leave
    the state as it was, and a run with a command and a [new_alert]
    keeps the old alert as the tail of the Store. *)
Lemma commands_leave_store_unchanged_witness :
  state (run (store (Some SocketIo) true
                [alert_with "a1" "2025-01-01T10:00:00Z" pending None])
             (Invoke <$> [call_updateAlertStatus "a1" reviewing (Some "u7");
                          call_updateAlertStatus "a1" dispatched (Some "u7");
                          call_subscribeToCamera "cam_004"]))
  = state (store (Some SocketIo) true
             [alert_with "a1" "2025-01-01T10:00:00Z" pending None])
  /\ forallb (fun s => negb (is_alert_updated s))
       [Invoke (call_updateAlertStatus "a1" dispatched (Some "u7"));
        Deliver env0 (on_new_alert (alert_with "a2" "2025-01-01T09:00:00Z" pending None))]
     = true
  /\ alerts (state (store (Some SocketIo) true
                      [alert_with "a1" "2025-01-01T10:00:00Z" pending None]))
     `suffix_of`
     alerts (state (run (store (Some SocketIo) true
                           [alert_with "a1" "2025-01-01T10:00:00Z" pending None])
       [Invoke (call_updateAlertStatus "a1" dispatched (Some "u7"));
        Deliver env0 (on_new_alert (alert_with "a2" "2025-01-01T09:00:00Z" pending None))])).
Proof.
  destruct (commands_leave_store_unchanged ToString String_trim initialState)
    as (_ & _ & H3 & H4).
  split; [apply H3|]. split; [reflexivity|].
  exact (H4 [Invoke (call_updateAlertStatus "a1" dispatched (Some "u7"));
             Deliver env0 (on_new_alert
                             (alert_with "a2" "2025-01-01T09:00:00Z" pending None))]
            (store (Some SocketIo) true
                   [alert_with "a1" "2025-01-01T10:00:00Z" pending None])
            eq_refl).
Defined.

End Examples.

(** * Further properties of the socket context *)

Section Runs.

Variable ToString : jsval -> string.
Variable String_trim : string -> string.
Variable closure : ClientState.

Local Abbreviation handle := (handle ToString String_trim).
Local Abbreviation created := (created ToString String_trim).
Local Abbreviation step := (step ToString String_trim closure).
Local Abbreviation run := (run ToString String_trim closure).
Local Abbreviation created_by := (created_by ToString String_trim).

Lemma try_prepend_frame m st :
  socket (try_prepend m st) = socket st
  /\ connected (try_prepend m st) = connected st
  /\ touristLocations (try_prepend m st) = touristLocations st
  /\ systemStatus (try_prepend m st) = systemStatus st.
Proof. by destruct m. Qed.

(** A cell of the state that each step either overwrites with the value
    it carries or leaves alone holds, after a run, the last value carried. *)
Lemma run_last {A} (cell : ClientState -> A) (carried : Step -> option A) :
  (forall w s, cell (state (step w s)) = default (cell (state w)) (carried s)) ->
  forall steps w,
    cell (state (run w steps))
    = default (cell (state w)) (last (omap carried steps)).
Proof.
  intros Hstep steps. induction steps as [|s steps IH] using rev_ind; intros w.
  - done.
  - rewrite (run_snoc ToString String_trim closure), Hstep, omap_app, IH. simpl.
    destruct (carried s) as [x|]; simpl.
    + by rewrite last_snoc.
    + by rewrite app_nil_r.
Qed.

Lemma step_systemStatus w s :
  systemStatus (state (step w s))
  = default (systemStatus (state w)) (status_pushed s).
Proof.
  destruct s as [env ev|c]; simpl; [|by rewrite invoke_state].
  destruct ev; simpl; try done; apply try_prepend_frame.
Qed.

Lemma step_touristLocations w s :
  touristLocations (state (step w s))
  = default (touristLocations (state w)) (locations_pushed s).
Proof.
  destruct s as [env ev|c]; simpl; [|by rewrite invoke_state].
  destruct ev; simpl; try done; apply try_prepend_frame.
Qed.

Lemma step_connected w s :
  connected (state (step w s))
  = default (connected (state w)) (connection_change s).
Proof.
  destruct s as [env ev|c]; simpl; [|by rewrite invoke_state].
  destruct ev; simpl; try done; apply try_prepend_frame.
Qed.

Lemma step_socket w s : socket (state (step w s)) = socket (state w).
Proof.
  destruct s as [env ev|c]; simpl; [|by rewrite invoke_state].
  destruct ev; simpl; try done; apply try_prepend_frame.
Qed.

(** X1: after any run of events and commands the system status is the
    one carried by the last [system_status_update] of the run, whole, and
    the one the run started with when there was none: earlier batches
    leave no trace. *)
Theorem system_status_is_last_batch steps w :
  systemStatus (state (run w steps))
  = default (systemStatus (state w)) (last (omap status_pushed steps)).
Proof. apply (run_last systemStatus status_pushed), step_systemStatus. Qed.

(** X2: after any run the tourist locations are the array carried by the
    last [tourist_location_update] of the run, and the initial ones when
    there was none; batches are never merged. *)
Theorem tourist_locations_are_last_batch steps w :
  touristLocations (state (run w steps))
  = default (touristLocations (state w)) (last (omap locations_pushed steps)).
Proof. apply (run_last touristLocations locations_pushed), step_touristLocations. Qed.

(** X3: after any run the connection flag is true when the last
    [connect]/[disconnect] event of the run was a [connect], false when
    it was a [disconnect], and unchanged when the run had neither;
    no command and no other event touches it. *)
Theorem connected_is_last_connection_event steps w :
  connected (state (run w steps))
  = default (connected (state w)) (last (omap connection_change steps)).
Proof. apply (run_last connected connection_change), step_connected. Qed.

Lemma invoke_open c w :
  socket_and_connected (state w) = true ->
  snd (invoke c w) = emit (emitted_event (wire c)) (emitted_payload (wire c)) w.
Proof.
  intros Hc. destruct c; simpl;
    unfold sendAlert, updateAlertStatus, subscribeToCamera, unsubscribeFromCamera;
    by rewrite Hc.
Qed.

Lemma not_connected_closed st :
  connected st = false -> socket_and_connected st = false.
Proof. unfold socket_and_connected. intros ->. by destruct (socket st). Qed.

Lemma forwarded_closed data :
  socket_and_connected closure = false -> forwarded closure data = None.
Proof.
  unfold forwarded. intros ->. by rewrite andb_false_r.
Qed.

Lemma listener_outbox data w :
  outbox (snd (iot_band_update_listener closure data w))
  = (outbox w ++ option_list (forwarded closure data))%list.
Proof.
  unfold iot_band_update_listener, forwarded, member, sendAlert.
  destruct (nullish data); simpl; [by rewrite app_nil_r|].
  destruct (truthy (get data "alert_type")); simpl; [|by rewrite app_nil_r].
  destruct (socket_and_connected closure); simpl; [done|by rewrite app_nil_r].
Qed.

Lemma deliver_outbox env ev w :
  outbox (step w (Deliver env ev))
  = (outbox w ++ option_list (forwarded_by closure (Deliver env ev)))%list.
Proof.
  destruct ev; simpl; try (by rewrite app_nil_r). apply listener_outbox.
Qed.

Lemma omap_snoc {A B} (f : A -> option B) (l : list A) (x : A) :
  omap f (l ++ [x])%list = (omap f l ++ option_list (f x))%list.
Proof. rewrite omap_app. simpl. by destruct (f x). Qed.

Lemma forwards_closed (steps : list Step) :
  socket_and_connected closure = false ->
  omap (forwarded_by closure) steps = [].
Proof.
  intros Hc. induction steps as [|s steps IH]; [done|]. simpl.
  assert (forwarded_by closure s = None) as ->; [|done].
  destruct s as [env []|c]; try done. by apply forwarded_closed.
Qed.

(** X4: from a state whose connection flag is false, a run in which no
    [connect] event is delivered sends no command, whatever commands are
    invoked in it and whatever else arrives, and the flag is still false
    at its end.  All that is emitted is what the [iot_band_update]
    listener forwards through the [sendAlert] of its closure, which
    looks at the cells of that render and not at the flag; when that
    render had no socket or was not connected, nothing is emitted. *)
Theorem no_command_emitted_until_connect steps w :
  connected (state w) = false ->
  forallb (fun s => negb (is_connect s)) steps = true ->
  outbox (run w steps) = (outbox w ++ omap (forwarded_by closure) steps)%list
  /\ connected (state (run w steps)) = false
  /\ (socket_and_connected closure = false -> outbox (run w steps) = outbox w).
Proof.
  intros Hc Hall.
  assert (outbox (run w steps) = (outbox w ++ omap (forwarded_by closure) steps)%list
          /\ connected (state (run w steps)) = false) as [Ho Hd].
  { induction steps as [|s steps IH] using rev_ind; [by rewrite app_nil_r|].
    rewrite forallb_app in Hall. simpl in Hall.
    apply andb_prop in Hall as [H1 H2].
    destruct (IH H1) as [Ho Hd].
    rewrite (run_snoc ToString String_trim closure), omap_snoc, app_assoc, <- Ho.
    split.
    - destruct s as [env ev|c]; [apply deliver_outbox|]. simpl.
      rewrite invoke_closed by (by apply not_connected_closed).
      by rewrite app_nil_r.
    - rewrite step_connected, Hd.
      by destruct s as [env []|c]. }
  split; [done|]. split; [done|].
  intros Hcl. by rewrite Ho, forwards_closed, app_nil_r.
Qed.

Lemma run_quiet_guard steps w :
  forallb (fun s => negb (bool_decide (is_Some (connection_change s)))) steps = true ->
  socket_and_connected (state (run w steps)) = socket_and_connected (state w).
Proof.
  induction steps as [|s steps IH] using rev_ind; intros Hall; [done|].
  rewrite forallb_app in Hall. simpl in Hall.
  apply andb_prop in Hall as [H1 H2].
  rewrite (run_snoc ToString String_trim closure), <- (IH H1).
  unfold socket_and_connected. rewrite step_socket, step_connected.
  destruct (connection_change s) as [b|]; [|done].
  rewrite bool_decide_true in H2 by done. done.
Qed.

Lemma sent_by_closed (steps : list Step) :
  socket_and_connected closure = false ->
  omap (sent_by closure) steps = omap invoked steps.
Proof.
  intros Hc. induction steps as [|s steps IH]; [done|].
  assert (sent_by closure s = invoked s) as Hs.
  { destruct s as [env []|c]; try done. by apply forwarded_closed. }
  change (s :: steps) with ([s] ++ steps)%list.
  rewrite !omap_app, IH. f_equal. simpl. by rewrite Hs.
Qed.

(** X5: from a state with a socket and the flag true, a run in which no
    [connect] or [disconnect] event is delivered emits, after what had
    been emitted before and in the order of the run, exactly one message
    for each command invoked and one [send_alert] for each
    [iot_band_update] whose data has a truthy [alert_type], the latter
    only when the render the listener closes over had a socket and was
    connected.  When it had not, the run emits exactly the messages of
    its commands. *)
Theorem commands_emitted_in_order_while_connected steps w :
  socket_and_connected (state w) = true ->
  forallb (fun s => negb (bool_decide (is_Some (connection_change s)))) steps = true ->
  outbox (run w steps) = (outbox w ++ omap (sent_by closure) steps)%list
  /\ (socket_and_connected closure = false ->
      outbox (run w steps) = (outbox w ++ omap invoked steps)%list).
Proof.
  intros Hc Hall.
  assert (outbox (run w steps) = (outbox w ++ omap (sent_by closure) steps)%list)
    as Ho.
  { induction steps as [|s steps IH] using rev_ind; [by rewrite app_nil_r|].
    rewrite forallb_app in Hall. simpl in Hall.
    apply andb_prop in Hall as [H1 H2].
    assert (socket_and_connected (state (run w steps)) = true) as Hopen
      by (by rewrite run_quiet_guard).
    rewrite (run_snoc ToString String_trim closure), omap_snoc, app_assoc, <- (IH H1).
    destruct s as [env ev|c].
    - rewrite deliver_outbox. by destruct ev.
    - simpl. rewrite invoke_open by done. simpl. by destruct (wire c). }
  split; [done|]. intros Hcl. by rewrite Ho, sent_by_closed.
Qed.

(** X6: whatever the run, what it emits is appended to what had been
    emitted before and is a subsequence, in the order of the run, of the
    messages of its commands and of the forwardings of its
    [iot_band_update] events; every such forwarding is in it.  So the
    other eight listeners emit nothing, nothing emitted is withdrawn or
    reordered, and a command dropped while the guard was false is not
    sent later. *)
Theorem emitted_is_subsequence_of_sent steps w :
  exists sent,
    outbox (run w steps) = (outbox w ++ sent)%list
    /\ sent `sublist_of` omap (sent_by closure) steps
    /\ omap (forwarded_by closure) steps `sublist_of` sent.
Proof.
  induction steps as [|s steps IH] using rev_ind.
  - exists []. by rewrite app_nil_r.
  - destruct IH as (sent & Ho & Hs & Hf).
    rewrite (run_snoc ToString String_trim closure), !omap_snoc.
    destruct s as [env ev|c].
    + exists (sent ++ option_list (forwarded_by closure (Deliver env ev)))%list.
      rewrite deliver_outbox, Ho, <- app_assoc.
      split; [done|]. split; [|by apply sublist_app].
      apply sublist_app; [done|]. by destruct ev.
    + simpl. rewrite app_nil_r.
      destruct (socket_and_connected (state (run w steps))) eqn:Hg.
      * exists (sent ++ [wire c])%list.
        rewrite invoke_open by done. simpl. rewrite Ho, <- app_assoc.
        split; [by destruct (wire c)|].
        split; [by apply sublist_app|by apply sublist_inserts_r].
      * exists sent. rewrite invoke_closed by done.
        split; [done|]. split; [by apply sublist_inserts_r|done].
Qed.

Lemma replace_absent (u : Alert) (l : list Alert) :
  id u ∉ id <$> l ->
  (fun a => if String.eqb (id a) (id u) then u else a) <$> l = l.
Proof.
  induction l as [|a l IH]; [done|].
  rewrite fmap_cons, not_elem_of_cons. intros [Hne Hl].
  rewrite fmap_cons, (IH Hl). f_equal.
  destruct (String.eqb_spec (id a) (id u)); congruence.
Qed.

(** X7: an [alert_updated] record whose id is not in the Store changes
    nothing: it is not inserted, and the state is exactly what it was. *)
Theorem alert_updated_unknown_id_is_ignored env u st :
  id u ∉ ids st ->
  handle env (on_alert_updated u) st = st.
Proof.
  intros Hid. destruct st as [so co al tl ss]. unfold ids in Hid. simpl in *.
  unfold setAlerts. simpl. by rewrite replace_absent.
Qed.

(** X8: of two [alert_updated] records with the same id delivered one
    after the other only the second counts: the state is the one the
    second alone would have given.  In particular a record delivered
    twice has the effect of one delivery. *)
Theorem alert_updated_last_write_wins env1 env2 u1 u2 st :
  id u1 = id u2 ->
  handle env2 (on_alert_updated u2) (handle env1 (on_alert_updated u1) st)
  = handle env2 (on_alert_updated u2) st.
Proof.
  intros Hid. simpl. unfold setAlerts. simpl. f_equal.
  rewrite <- list_fmap_compose. apply list_fmap_ext. intros _ a _. simpl.
  rewrite Hid.
  destruct (String.eqb_spec (id a) (id u2)) as [E|E]; simpl.
  - by rewrite Hid, String.eqb_refl.
  - by destruct (String.eqb_spec (id a) (id u2)).
Qed.

(** X9: an [alert] or [tourist_violence_alert] event whose payload is
    null or undefined is caught by the handler's [try]: the state after
    it is the state before it, so nothing is added and later events are
    handled as if it had not arrived. *)
Theorem null_payload_is_dropped env payload st :
  nullish payload = true ->
  handle env (on_alert payload) st = st
  /\ handle env (on_tourist_violence_alert payload) st = st.
Proof.
  intros Hp. simpl.
  by rewrite map_alert_nullish, map_tourist_violence_alert_nullish.
Qed.

Lemma created_detection_id env ev a :
  is_detection (Deliver env ev) = true ->
  created env ev = Some a ->
  id a = fresh_id env.
Proof.
  intros Hd Hc. destruct ev as [p|p| | |n|u|l|t|d]; try done.
  - apply created_on_alert in Hc as [Hp Hm].
    rewrite map_alert_ok in Hm by done. by injection Hm as <-.
  - apply created_on_tourist_violence_alert in Hc as [Hp Hm].
    rewrite map_tourist_violence_alert_ok in Hm by done. by injection Hm as <-.
Qed.

(** X17: an [alert] or [tourist_violence_alert] event whose payload is
    not null or undefined raises the number of pending alerts that the
    header's bell shows by exactly one. *)
Theorem detection_raises_pending_count env payload st :
  nullish payload = false ->
  DashboardLayout.pendingAlerts (alerts (handle env (on_alert payload) st))
  = S (DashboardLayout.pendingAlerts (alerts st))
  /\ DashboardLayout.pendingAlerts
       (alerts (handle env (on_tourist_violence_alert payload) st))
     = S (DashboardLayout.pendingAlerts (alerts st)).
Proof.
  intros Hp. unfold DashboardLayout.pendingAlerts.
  change (handle env (on_alert payload) st)
    with (try_prepend (map_alert env payload) st).
  change (handle env (on_tourist_violence_alert payload) st)
    with (try_prepend (map_tourist_violence_alert ToString String_trim env payload) st).
  rewrite map_alert_ok, map_tourist_violence_alert_ok by done.
  unfold try_prepend, setAlerts. cbn [alerts].
  by rewrite !filter_cons_True by done.
Qed.

End Runs.

(** ** The ids the handlers make *)

Lemma digits_free_of_underscore d :
  free_of "_" (NilEmpty.string_of_uint d).
Proof. induction d; simpl; try done; by split. Qed.

Lemma decimal_free_of_underscore n :
  free_of "_" (NilZero.string_of_uint (N.to_uint n)).
Proof.
  unfold NilZero.string_of_uint.
  destruct (N.to_uint n) eqn:E; try apply digits_free_of_underscore.
  simpl. by split.
Qed.

Lemma append_split c a b x y :
  free_of c a -> free_of c b ->
  (a ++ String c x = b ++ String c y)%string ->
  a = b /\ x = y.
Proof.
  revert b. induction a as [|c1 a IH]; intros [|c2 b]; simpl.
  - intros _ _ [= ->]. done.
  - intros _ [Hne _] [= E _]. by destruct Hne.
  - intros [Hne _] _ [= E _]. by destruct Hne.
  - intros [_ Ha] [_ Hb] [= -> E].
    destruct (IH b Ha Hb E) as [-> ->]. done.
Qed.

Lemma decimal_inj n m :
  NilZero.string_of_uint (N.to_uint n) = NilZero.string_of_uint (N.to_uint m) ->
  n = m.
Proof.
  intros E. apply DecimalN.Unsigned.to_uint_inj.
  assert (forall k, N.to_uint k <> Decimal.Nil) as Hnn.
  { intros [|p]; [done|]. apply DecimalPos.Unsigned.to_uint_nonnil. }
  apply (f_equal NilZero.uint_of_string) in E.
  rewrite !NilZero.usu in E by apply Hnn. by injection E.
Qed.

(** X10: two ids made by the handlers are equal exactly when the two
    readings of [Date.now()] are equal and the six characters taken from
    the random string are equal: the clock reading can be read back from
    the id, so alerts mapped in different milliseconds never share one. *)
Theorem fresh_id_eq_iff e1 e2 :
  fresh_id e1 = fresh_id e2
  <-> Date_now e1 = Date_now e2
      /\ String.substring 2 6 (Math_random_base36 e1)
         = String.substring 2 6 (Math_random_base36 e2).
Proof.
  unfold fresh_id. split.
  - intros E.
    apply append_split in E as [E1 E2];
      [|apply decimal_free_of_underscore|apply decimal_free_of_underscore].
    split; [by apply decimal_inj|done].
  - by intros [-> ->].
Qed.

Lemma fresh_id_now e1 e2 : fresh_id e1 = fresh_id e2 -> Date_now e1 = Date_now e2.
Proof.
  unfold fresh_id. intros E.
  apply append_split in E as [E1 E2];
    [|apply decimal_free_of_underscore|apply decimal_free_of_underscore].
  by apply decimal_inj.
Qed.

Lemma fresh_ids_NoDup (envs : list Env) :
  NoDup (Date_now <$> envs) -> NoDup (fresh_id <$> envs).
Proof.
  induction envs as [|e envs IH]; [constructor|].
  rewrite !fmap_cons, !NoDup_cons. intros [Hn Hnd]. split; [|by apply IH].
  intros (e' & E & He')%list_elem_of_fmap. apply Hn.
  apply list_elem_of_fmap. exists e'. split; [by apply fresh_id_now|done].
Qed.

Section Ids.

Variable ToString : jsval -> string.
Variable String_trim : string -> string.
Variable closure : ClientState.

Local Abbreviation run := (run ToString String_trim closure).
Local Abbreviation created_by := (created_by ToString String_trim).

Lemma created_ids_sublist steps :
  forallb is_detection steps = true ->
  (id <$> omap created_by steps) `sublist_of` (fresh_id <$> omap step_env steps).
Proof.
  induction steps as [|s steps IH]; [done|].
  simpl. intros [Hs Hall]%andb_prop. specialize (IH Hall).
  destruct s as [env ev|c]; [|done]. simpl.
  destruct (created ToString String_trim env ev) as [a|] eqn:Hc.
  - rewrite ?fmap_cons, (created_detection_id _ _ _ _ _ Hs Hc).
    by apply sublist_skip.
  - rewrite ?fmap_cons. by apply sublist_cons.
Qed.

(** X11: deliver to an empty Store any sequence of [alert] and
    [tourist_violence_alert] events that are handled at pairwise distinct
    readings of [Date.now()]: the ids in the Store are pairwise distinct,
    whatever the random strings were. *)
Theorem distinct_clock_readings_give_distinct_ids steps w :
  forallb is_detection steps = true ->
  alerts (state w) = [] ->
  NoDup (Date_now <$> omap step_env steps) ->
  NoDup (ids (state (run w steps))).
Proof.
  intros Hdet Hempty Hnow. unfold ids.
  rewrite run_alerts, Hempty, app_nil_r.
  2:{ apply forallb_forall. intros s Hs.
      rewrite forallb_forall in Hdet. specialize (Hdet s Hs).
      by destruct s as [env []|c]. }
  rewrite fmap_reverse, reverse_Permutation.
  eapply sublist_NoDup; [|by apply created_ids_sublist].
  by apply fresh_ids_NoDup.
Qed.

End Ids.

(** ** The [iot_band_update] handler *)

(** X12: when the render whose closure the handler holds had no socket
    yet (as the first render with a user has: only the effect sets the
    cell), an [iot_band_update] event never sends anything and changes
    nothing, whatever the data and whatever the connection is by then:
    the call ends with a TypeError on null or undefined data and
    normally otherwise, and the world is as it was. *)
Theorem iot_band_update_stale_closure closure data w :
  socket closure = None ->
  iot_band_update_listener closure data w
  = (if nullish data then Throw TypeError else Normal tt, w).
Proof.
  intros Hs. unfold iot_band_update_listener, member.
  destruct (nullish data); [done|].
  destruct (truthy (get data "alert_type")); [|done].
  unfold sendAlert, socket_and_connected. simpl. rewrite Hs. simpl.
  by destruct w.
Qed.

(** ** The alert panel *)

(** X13: the three sections of the panel and the alerts it shows nowhere
    split the Store: every alert is, once, in the pending section, in the
    reviewing section, among the dispatched alerts, or is resolved or
    false-positive and in no section. *)
Theorem panel_sections_split_the_store (l : list Alert) :
  (AlertPanelSections.pendingAlerts l
   ++ AlertPanelSections.reviewingAlerts l
   ++ AlertPanelSections.dispatchedAlerts l
   ++ filter (fun a => terminal (status a) = true) l)%list ≡ₚ l.
Proof.
  unfold AlertPanelSections.pendingAlerts, AlertPanelSections.reviewingAlerts,
    AlertPanelSections.dispatchedAlerts.
  induction l as [|a l IH]; [done|].
  rewrite !(filter_cons _ a).
  destruct (status a) eqn:E; simpl;
    repeat case_decide; try done;
    rewrite <- ?Permutation_middle; by constructor.
Qed.

(** X14: when the Store is not empty and every alert in it is resolved or
    false-positive, the panel shows nothing at all: the three sections
    are empty and the "No alerts" block, which is tied to an empty Store,
    is not shown either. *)
Theorem panel_is_blank_when_all_alerts_closed (l : list Alert) :
  l <> [] ->
  Forall (fun a => terminal (status a) = true) l ->
  AlertPanelSections.pendingAlerts l = []
  /\ AlertPanelSections.reviewingAlerts l = []
  /\ AlertPanelSections.dispatched_cards l = []
  /\ AlertPanelSections.no_alerts l = false.
Proof.
  intros Hne Hall.
  assert (forall s, terminal s = false -> filter (fun a => status a = s) l = []) as Hf.
  { clear Hne. intros s Hs. induction Hall as [|a l Ha Hl IH]; [done|].
    rewrite filter_cons_False; [by apply IH|].
    intros E. rewrite E in Ha. congruence. }
  unfold AlertPanelSections.pendingAlerts, AlertPanelSections.reviewingAlerts,
    AlertPanelSections.dispatched_cards, AlertPanelSections.dispatchedAlerts,
    AlertPanelSections.no_alerts.
  rewrite !Hf by done. repeat split.
  apply bool_decide_eq_false. by destruct l.
Qed.

(** X15: the only status changes the panel lets a user ask for.  An
    action is offered only to a dispatcher or an admin, only on an alert
    that is pending or reviewing, and review only on a pending one; the
    status it asks for is reviewing, dispatched or false-positive, never
    pending or resolved, and never the status the alert already has. *)
Theorem panel_offers_only_forward_transitions user a action :
  action ∈ AlertPanel.offered user a ->
  AlertPanel.canDispatch user = true
  /\ (status a = pending \/ status a = reviewing /\ action <> act_review)
  /\ AlertPanel.statusMap action <> status a
  /\ AlertPanel.statusMap action <> pending
  /\ AlertPanel.statusMap action <> resolved.
Proof.
  unfold AlertPanel.offered, AlertCard.actions.
  destruct (AlertPanel.canDispatch user), (status a) eqn:E; simpl;
    rewrite ?elem_of_cons, ?elem_of_nil; intros H;
    repeat destruct H as [H|H]; subst; try done; naive_solver.
Qed.

(** X16: every action the panel offers, taken while the socket is there
    and connected, emits one [update_alert_status] that names the alert,
    the new status and, as [assignedTo], the id of the user who clicked:
    a user is always there, and this holds for review and false-positive
    as well as for dispatch. *)
Theorem panel_action_carries_acting_user user a action w :
  action ∈ AlertPanel.offered user a ->
  socket_and_connected (state w) = true ->
  exists u,
    user = Some u
    /\ AlertPanel.handleAlertAction user (id a) action w
       = (Normal tt,
          emit "update_alert_status"
               (JObj [("alertId", JStr (id a));
                      ("status", JStr (Status_str (AlertPanel.statusMap action)));
                      ("assignedTo", JStr (AlertPanel.user_id u))]) w).
Proof.
  intros Hoff Hopen.
  assert (AlertPanel.canDispatch user = true) as Hcan.
  { revert Hoff. unfold AlertPanel.offered, AlertCard.actions.
    destruct (AlertPanel.canDispatch user), (status a); simpl;
      by rewrite ?elem_of_nil. }
  destruct user as [u|]; [|done]. exists u. split; [done|].
  unfold AlertPanel.handleAlertAction, updateAlertStatus. by rewrite Hopen.
Qed.

(** * The further properties at concrete inputs *)

Section FurtherExamples.

Import Example.

Local Abbreviation handle := (handle ToString String_trim).
Local Abbreviation run_with := (run ToString String_trim).
Local Abbreviation run := (run_with initialState).

(** X4 at a concrete input, the listeners registered by the first
    render: while disconnected, two commands, an alert, a band update
    and a [disconnect] leave the outbox empty. *)
Lemma no_command_emitted_until_connect_witness :
  connected (state (store (Some SocketIo) false
                      [alert_with "a1" "2025-01-01T10:00:00Z" pending None])) = false
  /\ outbox (run (store (Some SocketIo) false
                    [alert_with "a1" "2025-01-01T10:00:00Z" pending None])
                 [Invoke (call_updateAlertStatus "a1" reviewing (Some "u7"));
                  Deliver env0 (on_alert scenarioA);
                  Deliver env0 (on_iot_band_update band_panic);
                  Deliver env1 on_disconnect;
                  Invoke (call_subscribeToCamera "cam_004")]) = [].
Proof.
  split; [reflexivity|].
  exact (proj1 (no_command_emitted_until_connect ToString String_trim initialState
                  [Invoke (call_updateAlertStatus "a1" reviewing (Some "u7"));
                   Deliver env0 (on_alert scenarioA);
                   Deliver env0 (on_iot_band_update band_panic);
                   Deliver env1 on_disconnect;
                   Invoke (call_subscribeToCamera "cam_004")]
                  (store (Some SocketIo) false
                     [alert_with "a1" "2025-01-01T10:00:00Z" pending None])
                  eq_refl eq_refl)).
Defined.

(** The case that X4 leaves open, at a concrete input: the listeners
    were registered by a render that had a socket and was connected; the
    flag is false by now and no [connect] arrives, yet a band update is
    forwarded, while the command is dropped. *)
Lemma band_update_forwarded_while_disconnected :
  outbox (run_with (state (store (Some SocketIo) true []))
            (store (Some SocketIo) false [])
            [Invoke (call_subscribeToCamera "cam_004");
             Deliver env0 (on_iot_band_update band_panic)])
  = [Emit "send_alert" (iotAlert band_panic)].
Proof. reflexivity. Qed.

(** X5 at a concrete input, the listeners registered by a render that
    had a socket and was connected: a command, an alert, a band update
    and a second command give three messages, in that order. *)
Lemma commands_emitted_in_order_while_connected_witness :
  socket_and_connected
    (state (store (Some SocketIo) true
              [alert_with "a1" "2025-01-01T10:00:00Z" pending None])) = true
  /\ outbox (run_with (state (store (Some SocketIo) true []))
                 (store (Some SocketIo) true
                    [alert_with "a1" "2025-01-01T10:00:00Z" pending None])
                 [Invoke (call_updateAlertStatus "a1" reviewing (Some "u7"));
                  Deliver env0 (on_alert scenarioA);
                  Deliver env0 (on_iot_band_update band_panic);
                  Invoke (call_subscribeToCamera "cam_004")])
     = [Emit "update_alert_status"
          (JObj [("alertId", JStr "a1"); ("status", JStr "reviewing");
                 ("assignedTo", JStr "u7")]);
        Emit "send_alert"
          (JObj [("type", JStr "panic");
                 ("severity", JStr "medium");
                 ("confidence", JNum 0.8%Q);
                 ("location", JUndefined);
                 ("tourist_ids", JArr [JStr "T-0017"]);
                 ("description", JStr "IoT Band Alert")]);
        Emit "subscribe_camera" (JObj [("cameraId", JStr "cam_004")])].
Proof.
  split; [reflexivity|].
  exact (proj1 (commands_emitted_in_order_while_connected ToString String_trim
                  (state (store (Some SocketIo) true []))
                  [Invoke (call_updateAlertStatus "a1" reviewing (Some "u7"));
                   Deliver env0 (on_alert scenarioA);
                   Deliver env0 (on_iot_band_update band_panic);
                   Invoke (call_subscribeToCamera "cam_004")]
                  (store (Some SocketIo) true
                     [alert_with "a1" "2025-01-01T10:00:00Z" pending None])
                  eq_refl eq_refl)).
Defined.

Lemma alert_updated_unknown_id_is_ignored_witness :
  ("a9" ∉ ids (state (store (Some SocketIo) true
                        [alert_with "a1" "2025-01-01T10:00:00Z" pending None])))
  /\ handle env0
       (on_alert_updated (alert_with "a9" "2025-01-01T11:00:00Z" resolved None))
       (state (store (Some SocketIo) true
                 [alert_with "a1" "2025-01-01T10:00:00Z" pending None]))
     = state (store (Some SocketIo) true
                [alert_with "a1" "2025-01-01T10:00:00Z" pending None]).
Proof.
  assert ("a9" ∉ ids (state (store (Some SocketIo) true
                        [alert_with "a1" "2025-01-01T10:00:00Z" pending None])))
    as Hn by (apply not_elem_of_cons; split; [discriminate|apply not_elem_of_nil]).
  split; [exact Hn|].
  exact (alert_updated_unknown_id_is_ignored ToString String_trim env0
           (alert_with "a9" "2025-01-01T11:00:00Z" resolved None) _ Hn).
Defined.

Lemma alert_updated_last_write_wins_witness :
  status <$> alerts
    (handle env1
       (on_alert_updated (alert_with "a1" "2025-01-01T10:00:00Z" resolved None))
       (handle env0
          (on_alert_updated (alert_with "a1" "2025-01-01T10:00:00Z" reviewing None))
          (state (store (Some SocketIo) true
                    [alert_with "a1" "2025-01-01T10:00:00Z" pending None]))))
  = [resolved].
Proof.
  rewrite (alert_updated_last_write_wins ToString String_trim env0 env1
             (alert_with "a1" "2025-01-01T10:00:00Z" reviewing None)
             (alert_with "a1" "2025-01-01T10:00:00Z" resolved None)
             (state (store (Some SocketIo) true
                       [alert_with "a1" "2025-01-01T10:00:00Z" pending None]))
             eq_refl).
  reflexivity.
Defined.

Lemma null_payload_is_dropped_witness :
  nullish JNull = true
  /\ handle env0 (on_alert JNull)
       (state (store (Some SocketIo) true
                 [alert_with "a1" "2025-01-01T10:00:00Z" pending None]))
     = state (store (Some SocketIo) true
                [alert_with "a1" "2025-01-01T10:00:00Z" pending None]).
Proof.
  split; [reflexivity|].
  exact (proj1 (null_payload_is_dropped ToString String_trim env0 JNull
                  (state (store (Some SocketIo) true
                            [alert_with "a1" "2025-01-01T10:00:00Z" pending None]))
                  eq_refl)).
Defined.

Lemma distinct_clock_readings_give_distinct_ids_witness :
  NoDup [Date_now env0; Date_now env1]
  /\ NoDup (ids (state (run (store (Some SocketIo) true [])
                          [Deliver env0 (on_alert scenarioA);
                           Deliver env1 (on_tourist_violence_alert tourist_payload)]))).
Proof.
  assert (NoDup [Date_now env0; Date_now env1]) as Hnd.
  { apply NoDup_cons. split; [|apply NoDup_singleton].
    rewrite list_elem_of_singleton. discriminate. }
  split; [exact Hnd|].
  exact (distinct_clock_readings_give_distinct_ids ToString String_trim initialState
           [Deliver env0 (on_alert scenarioA);
            Deliver env1 (on_tourist_violence_alert tourist_payload)]
           (store (Some SocketIo) true []) eq_refl eq_refl Hnd).
Defined.

(** The first render with a user: its cells are the initial ones; the
    effect then sets the socket and [connect] arrives.  A band update
    with an alert type is still not sent on. *)
Lemma iot_band_update_stale_closure_witness :
  socket initialState = None
  /\ socket_and_connected (handle env0 on_connect (useEffect_user initialState))
     = true
  /\ iot_band_update_listener initialState band_panic
       {| state := handle env0 on_connect (useEffect_user initialState);
          outbox := [] |}
     = (Normal tt,
        {| state := handle env0 on_connect (useEffect_user initialState);
           outbox := [] |}).
Proof.
  split; [reflexivity|]. split; [reflexivity|].
  exact (iot_band_update_stale_closure initialState band_panic
           {| state := handle env0 on_connect (useEffect_user initialState);
              outbox := [] |}
           eq_refl).
Defined.

Lemma panel_is_blank_when_all_alerts_closed_witness :
  AlertPanelSections.pendingAlerts
    [alert_with "a1" "2025-01-01T10:00:00Z" resolved (Some "off_002");
     alert_with "a2" "2025-01-01T09:00:00Z" false_positive None] = []
  /\ AlertPanelSections.no_alerts
       [alert_with "a1" "2025-01-01T10:00:00Z" resolved (Some "off_002");
        alert_with "a2" "2025-01-01T09:00:00Z" false_positive None] = false.
Proof.
  destruct (panel_is_blank_when_all_alerts_closed
              [alert_with "a1" "2025-01-01T10:00:00Z" resolved (Some "off_002");
               alert_with "a2" "2025-01-01T09:00:00Z" false_positive None])
    as (H1 & _ & _ & H4).
  - discriminate.
  - repeat constructor.
  - split; [exact H1|exact H4].
Defined.

Lemma panel_offers_only_forward_transitions_witness :
  (act_dispatch
     ∈ AlertPanel.offered
         (Some {| AlertPanel.user_id := "u7"; AlertPanel.role := AlertPanel.dispatcher |})
         (alert_with "a1" "2025-01-01T10:00:00Z" reviewing None))
  /\ AlertPanel.statusMap act_dispatch
     <> status (alert_with "a1" "2025-01-01T10:00:00Z" reviewing None).
Proof.
  assert (act_dispatch
            ∈ AlertPanel.offered
                (Some {| AlertPanel.user_id := "u7";
                         AlertPanel.role := AlertPanel.dispatcher |})
                (alert_with "a1" "2025-01-01T10:00:00Z" reviewing None))
    as Hin by apply list_elem_of_here.
  split; [exact Hin|].
  exact (proj1 (proj2 (proj2 (panel_offers_only_forward_transitions _ _ _ Hin)))).
Defined.

Lemma panel_action_carries_acting_user_witness :
  exists u,
    AlertPanel.handleAlertAction
      (Some {| AlertPanel.user_id := "u7"; AlertPanel.role := AlertPanel.admin |})
      "a1" act_review
      (store (Some SocketIo) true
         [alert_with "a1" "2025-01-01T10:00:00Z" pending None])
    = (Normal tt,
       emit "update_alert_status"
            (JObj [("alertId", JStr "a1"); ("status", JStr "reviewing");
                   ("assignedTo", JStr (AlertPanel.user_id u))])
            (store (Some SocketIo) true
               [alert_with "a1" "2025-01-01T10:00:00Z" pending None])).
Proof.
  destruct (panel_action_carries_acting_user
              (Some {| AlertPanel.user_id := "u7"; AlertPanel.role := AlertPanel.admin |})
              (alert_with "a1" "2025-01-01T10:00:00Z" pending None)
              act_review
              (store (Some SocketIo) true
                 [alert_with "a1" "2025-01-01T10:00:00Z" pending None])
              (list_elem_of_here _ _) eq_refl)
    as (u & _ & Hu).
  exists u. exact Hu.
Defined.

Lemma detection_raises_pending_count_witness :
  nullish scenarioA = false
  /\ DashboardLayout.pendingAlerts
       (alerts (handle env0 (on_alert scenarioA)
                  (state (store (Some SocketIo) true
                            [alert_with "a1" "2025-01-01T10:00:00Z" pending None;
                             alert_with "a2" "2025-01-01T09:00:00Z" resolved None]))))
     = 2%nat.
Proof.
  split; [reflexivity|].
  exact (proj1 (detection_raises_pending_count ToString String_trim env0 scenarioA
                  (state (store (Some SocketIo) true
                            [alert_with "a1" "2025-01-01T10:00:00Z" pending None;
                             alert_with "a2" "2025-01-01T09:00:00Z" resolved None]))
                  eq_refl)).
Defined.

End FurtherExamples.

(** ** The tourist chips of a card *)

Lemma string_length_append (a b : string) :
  String.length (a ++ b)%string = String.length a + String.length b.
Proof. induction a as [|c a IH]; simpl; [done|]. by rewrite IH. Qed.

Lemma substring_rest s :
  forall n m,
    String.length s <= n + m ->
    exists pre,
      s = (pre ++ String.substring n m s)%string
      /\ String.length pre = min n (String.length s).
Proof.
  induction s as [|c s IH]; intros n m Hlen.
  - exists "". by destruct n, m.
  - destruct n as [|n].
    + destruct m as [|m]; [simpl in Hlen; lia|].
      destruct (IH 0 m ltac:(simpl in Hlen; lia)) as (pre & E & Hp).
      destruct pre; [|done].
      change (s = String.substring 0 m s) in E.
      exists "". split; [|done].
      change (String c s = String c (String.substring 0 m s)). by rewrite <- E.
    + destruct (IH n m ltac:(simpl in Hlen; lia)) as (pre & E & Hp).
      exists (String c pre). split.
      * change (String c s = String c (pre ++ String.substring n m s)%string).
        by rewrite <- E.
      * simpl. by rewrite Hp.
Qed.

(** X18: the chips of a card and its "+N more" account for every tourist
    id: at most three chips, one for each of the first three ids, and N
    is the number of ids left without a chip, shown only when there are
    more than three.  A chip is the end of its id, the whole id when
    that has six characters or fewer and its last six otherwise. *)
Theorem tourist_chips_account_for_every_id (tourist_ids : list string) :
  length (AlertCardTourists.chips tourist_ids) <= 3
  /\ length (AlertCardTourists.chips tourist_ids)
     + default 0 (AlertCardTourists.more tourist_ids)
     = length tourist_ids
  /\ Forall2 (fun chip touristId =>
                String.length chip = min 6 (String.length touristId)
                /\ exists pre, touristId = (pre ++ chip)%string)
             (AlertCardTourists.chips tourist_ids) (take 3 tourist_ids).
Proof.
  unfold AlertCardTourists.chips, AlertCardTourists.more.
  rewrite length_fmap, length_take.
  split; [lia|].
  split; [case_decide;
            [rewrite Nat.min_l by lia|rewrite Nat.min_r by lia]; simpl; lia|].
  apply Forall2_fmap_l, Forall_Forall2_diag, Forall_forall.
  intros touristId _. unfold AlertCardTourists.last6.
  destruct (substring_rest touristId (String.length touristId - 6) 6 ltac:(lia))
    as (pre & E & Hp).
  split; [|by exists pre].
  apply (f_equal String.length) in E. rewrite string_length_append in E. lia.
Qed.
